(** * pantalaimon: the proxy daemon ([pantalaimon/daemon.py])

    A shallow embedding of [ProxyDaemon]: credential extraction, the generic
    forwarder, the login, sync and send handlers and the shutdown hook,
    followed by the properties of the natural-language specification that
    concern them.

    Conventions.
    - Python [str] is [string]; Python [int] is [Z]; [None] is [None] of an
      [option], or [JNull] where the value is a decoded JSON value.
    - A handler is a computation in the monad [M]: it reads and updates the
      [ProxyDaemon] object, appends to a log every call it makes to something
      outside the daemon, and either returns or raises.
    - Handlers are modelled one at a time, from entry to exit: the event loop
      runs one coroutine until it awaits, and the properties below are about
      a single handler or a sequence of completed requests. *)

From Stdlib Require Import String Ascii List ZArith Bool Lia PeanoNat.
From Stdlib Require PrimFloat.
Import ListNotations.
Open Scope string_scope.

Set Implicit Arguments.
Set Warnings "-register-all".

(** ** Python strings *)

Module Py.

(** [c in chars] *)
Definition in_chars (c : ascii) (chars : string) : bool :=
  existsb (Ascii.eqb c) (list_ascii_of_string chars).

(** [s.lstrip(chars)]: drop leading characters that occur in [chars]. *)
Fixpoint lstrip (chars s : string) : string :=
  match s with
  | EmptyString => EmptyString
  | String c s' => if in_chars c chars then lstrip chars s' else s
  end.

(** [s.rstrip(chars)]: drop trailing characters that occur in [chars]. *)
Fixpoint rstrip (chars s : string) : string :=
  match s with
  | EmptyString => EmptyString
  | String c s' =>
      match rstrip chars s' with
      | EmptyString => if in_chars c chars then EmptyString else String c EmptyString
      | r => String c r
      end
  end.

(** [s.strip(chars)]: [chars] is a set of characters, stripped from both
    ends; it is not a prefix or a suffix. *)
Definition strip (chars s : string) : string := rstrip chars (lstrip chars s).

(** Truth value of a [str]: [not s] is [True] exactly for the empty string. *)
Definition truthy_str (s : string) : bool :=
  match s with EmptyString => false | _ => true end.

(** ASCII lower case, for the case-insensitive keys of [CIMultiDict]. *)
Definition lower_ascii (c : ascii) : ascii :=
  let n := nat_of_ascii c in
  if andb (Nat.leb 65 n) (Nat.leb n 90) then ascii_of_nat (n + 32) else c.

Fixpoint lower (s : string) : string :=
  match s with
  | EmptyString => EmptyString
  | String c s' => String (lower_ascii c) (lower s')
  end.

Definition ci_eqb (a b : string) : bool := String.eqb (lower a) (lower b).

End Py.

(** ** Multidicts ([request.query], [request.headers]) *)

Definition multidict := list (string * string).

(** [d.get(key, default)] on a [MultiDict]: the value of the first pair whose
    key is [key]. *)
Fixpoint md_get (d : multidict) (key : string) : option string :=
  match d with
  | [] => None
  | (k, v) :: d' => if String.eqb k key then Some v else md_get d' key
  end.

(** The same on a [CIMultiDict]: keys compare without case. *)
Fixpoint cimd_get (d : multidict) (key : string) : option string :=
  match d with
  | [] => None
  | (k, v) :: d' => if Py.ci_eqb k key then Some v else cimd_get d' key
  end.

(** [d.pop(key, None)] on a [CIMultiDict]: removes the first pair whose key is
    [key], if there is one. *)
Fixpoint cimd_pop (d : multidict) (key : string) : multidict :=
  match d with
  | [] => []
  | (k, v) :: d' => if Py.ci_eqb k key then d' else (k, v) :: cimd_pop d' key
  end.

Definition get_default (o : option string) (default : string) : string :=
  match o with Some v => v | None => default end.

(** ** Inbound requests ([aiohttp.web.BaseRequest]) *)

Record Request := mkRequest {
  method : string;
  path : string;
  query : multidict;
  headers : multidict;
  body_text : string;            (* await request.text() *)
  match_info : multidict         (* request.match_info, filled by the route *)
}.

(** ** [ProxyDaemon.get_access_token] *)

Definition get_access_token (request : Request) : string :=
  let access_token := get_default (md_get (query request) "access_token") "" in
  if negb (Py.truthy_str access_token)
  then Py.strip "Bearer " (get_default (cimd_get (headers request) "Authorization") "")
  else access_token.

(** ** JSON values ([json.loads], [json.dumps])

    A decoded JSON document as the Python value [json.loads] builds: [None],
    [bool], [int], [float], [str], [list], [dict] (keys in insertion order). *)

Inductive json :=
| JNull
| JBool (b : bool)
| JInt (n : Z)
| JFloat (f : PrimFloat.float)
| JStr (s : string)
| JList (l : list json)
| JDict (d : list (string * json)).

(** Truth value of a Python object ([if x:], [not x]). *)
Definition py_truthy (x : json) : bool :=
  match x with
  | JNull => false
  | JBool b => b
  | JInt n => negb (Z.eqb n 0)
  | JFloat f => negb (PrimFloat.eqb f PrimFloat.zero)
  | JStr s => Py.truthy_str s
  | JList l => match l with [] => false | _ => true end
  | JDict d => match d with [] => false | _ => true end
  end.

(** [isinstance(x, int)]; [bool] is a subclass of [int]. *)
Definition isinstance_int (x : json) : bool :=
  match x with
  | JInt _ | JBool _ => true
  | _ => false
  end.

(** ** Python dicts with string keys, in insertion order *)

Section Dict.
Variable V : Type.

Definition dict := list (string * V).

(** [d.get(k)], and [d[k]] where [None] stands for [KeyError]. *)
Fixpoint dict_get (d : dict) (k : string) : option V :=
  match d with
  | [] => None
  | (k', v) :: d' => if String.eqb k' k then Some v else dict_get d' k
  end.

(** [d[k] = v]: replaces the value of an existing key where it stands,
    appends a new key. *)
Fixpoint dict_set (d : dict) (k : string) (v : V) : dict :=
  match d with
  | [] => [(k, v)]
  | (k', v') :: d' =>
      if String.eqb k' k then (k', v) :: d' else (k', v') :: dict_set d' k v
  end.

(** [d.values()] *)
Definition dict_values (d : dict) : list V := map snd d.
End Dict.

(** ** Exceptions, results *)

Inductive exn :=
| JSONDecodeError
| KeyError (key : string)
| AttributeError
| GroupEncryptionError
| OtherError (msg : string).

Inductive result (A : Type) :=
| Ok (a : A)
| Raise (e : exn).
Arguments Ok {A} a.
Arguments Raise {A} e.

(** ** Objects outside the daemon *)

(** The [ssl] argument as the daemon passes it on: [None] (verify with the
    default context) or [False] (do not verify). *)
Inductive ssl_opt := SslNone | SslFalse.

(** [main]: [ssl = None if ssl_insecure is False else False]. *)
Definition ssl_of_flag (ssl_insecure : bool) : ssl_opt :=
  if ssl_insecure then SslFalse else SslNone.

(** An [aiohttp.ClientSession] object, by identity: the one the router makes
    with [ClientSession()], or the [client_session] attribute of a client. *)
Inductive ClientSession :=
| AnonymousSession (id : nat)
| SessionOf (client_id : nat).

(** A [PantaClient] object: its identity and its constructor's arguments. *)
Record PantaClient := mkPantaClient {
  client_id : nat;
  c_homeserver : string;
  c_user : json;
  c_device_id : json;
  c_store_path : string;
  c_ssl : ssl_opt;
  c_proxy : option string
}.

(** [client.client_session] *)
Definition client_session (c : PantaClient) : ClientSession :=
  SessionOf (client_id c).

(** The arguments of one [session.request(...)] call. *)
Record Outbound := mkOutbound {
  o_method : string;
  o_url : string;
  o_data : string;
  o_params : multidict;
  o_headers : multidict;
  o_proxy : option string;
  o_ssl : ssl_opt
}.

(** An upstream response ([aiohttp.ClientResponse]): [.status], [.text()]. *)
Record TransportResponse := mkTransport {
  tr_status : Z;
  tr_text : string
}.

(** What [client.login] returns: a [LoginResponse] with its [access_token],
    or anything else; both carry [transport_response]. *)
Inductive LoginResult :=
| LoginResponse (access_token : string) (transport_response : TransportResponse)
| LoginError (transport_response : TransportResponse).

Definition login_transport (r : LoginResult) : TransportResponse :=
  match r with LoginResponse _ t => t | LoginError t => t end.

(** What [client.sync] returns: a [SyncResponse], or anything else. The
    other answers are the error responses of the client library: they carry
    [transport_response], and they have no [text] method. *)
Inductive SyncResult :=
| SyncResponse (transport_response : TransportResponse)
| SyncError (transport_response : TransportResponse).

Record Device := mkDevice {
  dev_id : string;
  dev_deleted : bool
}.

(** What [client.keys_query] returns: a [KeysQueryResponse] with its
    [changed] map (user id to device id to device), or anything else. *)
Inductive KeysQueryResult :=
| KeysQueryResponse (changed : dict (dict Device))
| KeysQueryError.

(** Every call the daemon makes to an object outside it, in program order. *)
Inductive event :=
| NewClientSession (s : ClientSession)
| NewPantaClient (c : PantaClient)
| SessionRequest (s : ClientSession) (o : Outbound)
| ClientLogin (c : PantaClient) (password device_name : json)
| ClientSync (c : PantaClient) (timeout : option string) (sync_filter : json)
| KeysUpload (c : PantaClient)
| KeysQuery (c : PantaClient)
| Print (line : string)
| VerifyDevice (c : PantaClient) (d : Device)
| DecryptSyncBody (c : PantaClient) (body : json)
| RoomSend (c : PantaClient) (room_id msgtype : string) (content : json) (txnid : string)
| ShareGroupSession (c : PantaClient) (room_id : string)
| ClientClose (c : PantaClient)
| SessionClose (s : ClientSession).

(** Modelled from the spec: [pantalaimon.client.PantaClient], the upstream
    homeserver and the [json] decoder are not part of [daemon.py]; they are
    taken as parameters. Each answer may depend on every call made so far
    (the first argument). Following the collaborator contract of the
    specification, each operation returns a result; only [room_send] is
    described as failing with an exception, so only it returns a [result].
    [keys_upload], [share_group_session], [verify_device] and [close] return
    nothing the daemon reads. [json_loads s] is the decoded value, or
    [Raise JSONDecodeError] when [s] is not JSON, or another exception:
    [json.loads] also raises [ValueError] (an integer literal beyond the
    interpreter's digit limit) and [RecursionError] (deep nesting), which
    are no [JSONDecodeError]. An upstream body is taken to be text:
    [text()] of a body that cannot be decoded as text raises, and that is
    left out. *)
Record Environment := mkEnvironment {
  json_loads : string -> result json;
  session_request : list event -> ClientSession -> Outbound -> TransportResponse;
  client_login : list event -> PantaClient -> json -> json -> LoginResult;
  client_sync : list event -> PantaClient -> option string -> json -> SyncResult;
  should_upload_keys : list event -> PantaClient -> bool;
  should_query_keys : list event -> PantaClient -> bool;
  keys_query : list event -> PantaClient -> KeysQueryResult;
  decrypt_sync_body : list event -> PantaClient -> json -> json;
  room_send : list event -> PantaClient -> string -> string -> json -> string ->
              result TransportResponse
}.

(** ** The daemon object and the handler monad *)

Record ProxyDaemon := mkProxyDaemon {
  homeserver : string;
  data_dir : string;
  proxy : option string;
  ssl : ssl_opt;
  client_sessions : dict PantaClient;
  default_session : option ClientSession
}.

(** [ProxyDaemon(homeserver, data_dir, proxy=http_proxy, ssl=ssl)], as [init]
    builds it: an empty registry and no default session. *)
Definition new_daemon (homeserver data_dir : string) (proxy : option string)
    (ssl : ssl_opt) : ProxyDaemon :=
  mkProxyDaemon homeserver data_dir proxy ssl [] None.

Record World := mkWorld {
  self : ProxyDaemon;
  log : list event;
  next_id : nat            (* identity of the next object constructed *)
}.

Definition M (A : Type) : Type := World -> result A * World.

Definition ret {A} (a : A) : M A := fun w => (Ok a, w).

Definition raise {A} (e : exn) : M A := fun w => (Raise e, w).

Definition bind {A B} (m : M A) (k : A -> M B) : M B :=
  fun w =>
    match m w with
    | (Ok a, w') => k a w'
    | (Raise e, w') => (Raise e, w')
    end.

(** [try: m except ...: handler] *)
Definition try_except {A} (m : M A) (handler : exn -> M A) : M A :=
  fun w =>
    match m w with
    | (Ok a, w') => (Ok a, w')
    | (Raise e, w') => handler e w'
    end.

Declare Scope daemon_scope.
Delimit Scope daemon_scope with daemon.
Notation "x <- c ;; k" := (bind c (fun x => k))
  (at level 61, c at next level, right associativity) : daemon_scope.
Notation "c ;; k" := (bind c (fun _ => k))
  (at level 61, right associativity) : daemon_scope.
Open Scope daemon_scope.

(** A computation that touches nothing: it returns or raises. *)
Definition lift {A} (r : result A) : M A := fun w => (r, w).

Definition get_self : M ProxyDaemon := fun w => (Ok (self w), w).

Definition emit (e : event) (w : World) : World :=
  mkWorld (self w) (log w ++ [e]) (next_id w).

Definition tell (e : event) : M unit := fun w => (Ok tt, emit e w).

(** [self.client_sessions[token] = client] *)
Definition set_client_session (token : string) (client : PantaClient) : M unit :=
  fun w =>
    let d := self w in
    (Ok tt,
     mkWorld (mkProxyDaemon (homeserver d) (data_dir d) (proxy d) (ssl d)
                (dict_set (client_sessions d) token client) (default_session d))
             (log w) (next_id w)).

(** [self.default_session = s] *)
Definition set_default_session (s : option ClientSession) : M unit :=
  fun w =>
    let d := self w in
    (Ok tt,
     mkWorld (mkProxyDaemon (homeserver d) (data_dir d) (proxy d) (ssl d)
                (client_sessions d) s)
             (log w) (next_id w)).

(** [for x in l: body(x)] *)
Fixpoint for_each {A} (l : list A) (body : A -> M unit) : M unit :=
  match l with
  | [] => ret tt
  | x :: l' => body x ;; for_each l' body
  end.

(** [ClientSession()] *)
Definition new_ClientSession : M ClientSession :=
  fun w =>
    let s := AnonymousSession (next_id w) in
    (Ok s, mkWorld (self w) (log w ++ [NewClientSession s]) (S (next_id w))).

(** [PantaClient(homeserver, user, device_id, store_path=..., ssl=..., proxy=...)] *)
Definition new_PantaClient (homeserver : string) (user device_id : json)
    (store_path : string) (ssl : ssl_opt) (proxy : option string) : M PantaClient :=
  fun w =>
    let c := mkPantaClient (next_id w) homeserver user device_id store_path ssl proxy in
    (Ok c, mkWorld (self w) (log w ++ [NewPantaClient c]) (S (next_id w))).

(** [x.get(key, default)] on a decoded JSON value: a [dict] method; any
    other value has no [get] attribute. *)
Definition py_get (x : json) (key : string) (default : json) : M json :=
  match x with
  | JDict d => ret (match dict_get d key with Some v => v | None => default end)
  | _ => raise AttributeError
  end.

(** [request.match_info[key]] *)
Definition match_info_get (request : Request) (key : string) : M string :=
  match md_get (match_info request) key with
  | Some v => ret v
  | None => raise (KeyError key)
  end.

(** ** Responses ([aiohttp.web.Response]) *)

(** The [text] of a response: a string relayed as it came, or the
    [json.dumps] of a value. *)
Inductive Text :=
| Raw (s : string)
| Dumps (j : json).

Record Response := mkResponse {
  status : Z;
  text : Text
}.

(** [web.Response(text=...)]: the status defaults to 200. *)
Definition Response_text_only (t : Text) : Response := mkResponse 200 t.

Definition error_body (errcode error : string) : json :=
  JDict [("errcode", JStr errcode); ("error", JStr error)].

Definition _missing_token : Response :=
  mkResponse 401 (Dumps (error_body "M_MISSING_TOKEN" "Missing access token.")).

Definition _unknown_token : Response :=
  mkResponse 401 (Dumps (error_body "M_UNKNOWN_TOKEN" "Unrecognised access token.")).

Definition _not_json : Response :=
  mkResponse 400 (Dumps (error_body "M_NOT_JSON" "Request did not contain valid JSON.")).

(** The 500 response [login] builds for an undecodable body. *)
Definition login_not_json : Response :=
  mkResponse 500 (Dumps (error_body "M_NOT_JSON" "Request did not contain valid JSON.")).

(** ** The handlers *)

Section Handlers.
Variable env : Environment.

(** *** Calls to the outside: each is answered by [env] from the calls
    made so far, and logged. *)

Definition session_request_call (session : ClientSession) (o : Outbound)
    : M TransportResponse :=
  fun w => (Ok (session_request env (log w) session o),
            emit (SessionRequest session o) w).

Definition client_login_call (c : PantaClient) (password device_name : json)
    : M LoginResult :=
  fun w => (Ok (client_login env (log w) c password device_name),
            emit (ClientLogin c password device_name) w).

Definition client_sync_call (c : PantaClient) (timeout : option string)
    (sync_filter : json) : M SyncResult :=
  fun w => (Ok (client_sync env (log w) c timeout sync_filter),
            emit (ClientSync c timeout sync_filter) w).

Definition keys_query_call (c : PantaClient) : M KeysQueryResult :=
  fun w => (Ok (keys_query env (log w) c), emit (KeysQuery c) w).

Definition decrypt_sync_body_call (c : PantaClient) (body : json) : M json :=
  fun w => (Ok (decrypt_sync_body env (log w) c body),
            emit (DecryptSyncBody c body) w).

Definition room_send_call (c : PantaClient) (room_id msgtype : string)
    (content : json) (txnid : string) : M TransportResponse :=
  fun w => (room_send env (log w) c room_id msgtype content txnid,
            emit (RoomSend c room_id msgtype content txnid) w).

(** [client.should_upload_keys], [client.should_query_keys]: properties. *)
Definition read_should_upload_keys (c : PantaClient) : M bool :=
  fun w => (Ok (should_upload_keys env (log w) c), w).

Definition read_should_query_keys (c : PantaClient) : M bool :=
  fun w => (Ok (should_query_keys env (log w) c), w).

(** [await transport_response.json()] *)
Definition transport_json (t : TransportResponse) : M json :=
  lift (json_loads env (tr_text t)).

(** *** [forward_request] *)

Definition forward_request (request : Request) (session : ClientSession)
    : M TransportResponse :=
  let path := path request in
  let method := method request in
  let data := body_text request in
  let headers := cimd_pop (headers request) "Host" in
  let params := query request in
  d <- get_self ;;
  session_request_call session
    (mkOutbound method (homeserver d ++ path) data params headers
                (proxy d) SslFalse).

(** *** [router]. A client found in the registry is a true value (an
    object without [__bool__] or [__len__]); so is a [ClientSession]. *)

Definition router (request : Request) : M Response :=
  let token := get_access_token request in
  d <- get_self ;;
  session <-
    match dict_get (client_sessions d) token with
    | Some client => ret (client_session client)
    | None =>
        match default_session d with
        | Some s => ret s
        | None =>
            s <- new_ClientSession ;;
            set_default_session (Some s) ;;
            ret s
        end
    end ;;
  resp <- forward_request request session ;;
  ret (Response_text_only (Raw (tr_text resp))).

(** *** [_get_login_user] *)

Definition _get_login_user (body : json) : M json :=
  identifier <- py_get body "identifier" JNull ;;
  if py_truthy identifier then
    user <- py_get identifier "user" JNull ;;
    if negb (py_truthy user) then py_get body "user" (JStr "")
    else ret user
  else py_get body "user" (JStr "").

(** *** [login]. [await request.json()] is [json.loads] of the body text;
    the [except JSONDecodeError] branch returns at once. *)

Definition login (request : Request) : M Response :=
  match json_loads env (body_text request) with
  | Raise JSONDecodeError => ret login_not_json
  | Raise e => raise e
  | Ok body =>
      user <- _get_login_user body ;;
      password <- py_get body "password" (JStr "") ;;
      device_id <- py_get body "device_id" (JStr "") ;;
      device_name <- py_get body "initial_device_display_name" (JStr "pantalaimon") ;;
      d <- get_self ;;
      client <- new_PantaClient (homeserver d) user device_id (data_dir d)
                  (ssl d) (proxy d) ;;
      response <- client_login_call client password device_name ;;
      match response with
      | LoginResponse access_token _ => set_client_session access_token client
      | LoginError _ => tell (ClientClose client)
      end ;;
      ret (mkResponse (tr_status (login_transport response))
                      (Raw (tr_text (login_transport response))))
  end.

(** *** [sync] *)

(** The [filter] argument handed to [client.sync]: the query value is
    decoded when it can be and is kept as it is otherwise ([json.loads]
    raises [TypeError] on [None], [JSONDecodeError] on a [str] that is not
    JSON; both are passed over); an [int] becomes [None]. Any other
    exception of [json.loads] is not caught. *)
Definition decode_sync_filter (q : option string) : result json :=
  match
    match q with
    | None => Ok JNull
    | Some s =>
        match json_loads env s with
        | Ok j => Ok j
        | Raise JSONDecodeError => Ok (JStr s)
        | Raise e => Raise e
        end
    end
  with
  | Ok sync_filter => Ok (if isinstance_int sync_filter then JNull else sync_filter)
  | Raise e => Raise e
  end.

Definition verify_devices (client : PantaClient) (changed : dict (dict Device))
    : M unit :=
  for_each changed (fun user_devices =>
    for_each (dict_values (snd user_devices)) (fun device =>
      if dev_deleted device then ret tt
      else
        tell (Print ("Automatically verifying device " ++ dev_id device)) ;;
        tell (VerifyDevice client device))).

Definition sync (request : Request) : M Response :=
  let access_token := get_access_token request in
  if negb (Py.truthy_str access_token) then ret _missing_token
  else
    d <- get_self ;;
    match dict_get (client_sessions d) access_token with
    | None => ret _unknown_token
    | Some client =>
        let sync_filter := md_get (query request) "filter" in
        let timeout := md_get (query request) "timeout" in
        sync_filter <- lift (decode_sync_filter sync_filter) ;;
        response <- client_sync_call client timeout sync_filter ;;
        match response with
        | SyncError t =>
            (* status=response.transport_response.status is read, then
               response.text is looked up on the answer itself *)
            raise AttributeError
        | SyncResponse t =>
            upload <- read_should_upload_keys client ;;
            (if upload then tell (KeysUpload client) else ret tt) ;;
            query_keys <- read_should_query_keys client ;;
            (if query_keys then
               key_query_response <- keys_query_call client ;;
               match key_query_response with
               | KeysQueryResponse changed => verify_devices client changed
               | KeysQueryError => ret tt
               end
             else ret tt) ;;
            json_response <- transport_json t ;;
            decrypted_response <- decrypt_sync_body_call client json_response ;;
            ret (mkResponse (tr_status t) (Dumps decrypted_response))
        end
    end.

(** *** [send_message] *)

Definition send_message (request : Request) : M Response :=
  let access_token := get_access_token request in
  if negb (Py.truthy_str access_token) then ret _missing_token
  else
    d <- get_self ;;
    match dict_get (client_sessions d) access_token with
    | None => ret _unknown_token
    | Some client =>
        msgtype <- match_info_get request "event_type" ;;
        room_id <- match_info_get request "room_id" ;;
        txnid <- match_info_get request "txnid" ;;
        match json_loads env (body_text request) with
        | Raise JSONDecodeError => ret _not_json
        | Raise e => raise e
        | Ok content =>
            response <-
              try_except
                (room_send_call client room_id msgtype content txnid)
                (fun e =>
                   match e with
                   | GroupEncryptionError =>
                       tell (ShareGroupSession client room_id) ;;
                       room_send_call client room_id msgtype content txnid
                   | _ => raise e
                   end) ;;
            ret (mkResponse (tr_status response) (Raw (tr_text response)))
        end
    end.

(** *** [shutdown] *)

Definition shutdown : M unit :=
  d <- get_self ;;
  for_each (dict_values (client_sessions d))
           (fun client => tell (ClientClose client)) ;;
  d <- get_self ;;
  match default_session d with
  | Some s =>
      tell (SessionClose s) ;;
      set_default_session None
  | None => ret tt
  end.

End Handlers.

(** ** Serving requests

    [init] registers [login], [sync] and [send_message] on their three
    routes and [router] on every other path; which handler a request reaches
    is aiohttp's route resolution, so a served request comes with its
    route. An exception a handler raises ends that request only. *)

Inductive route := RLogin | RSync | RSendMessage | RRouter.

Definition dispatch (env : Environment) (r : route) (request : Request) : M Response :=
  match r with
  | RLogin => login env request
  | RSync => sync env request
  | RSendMessage => send_message env request
  | RRouter => router env request
  end.

Fixpoint serve (env : Environment) (requests : list (route * Request)) (w : World)
    : World :=
  match requests with
  | [] => w
  | (r, request) :: rest => serve env rest (snd (dispatch env r request w))
  end.

(** The world right after [init]. *)
Definition init (homeserver data_dir : string) (http_proxy : option string)
    (ssl : ssl_opt) : World :=
  mkWorld (new_daemon homeserver data_dir http_proxy ssl) [] 0.

(** ** A decoder to run the handlers with

    [JsonCore.loads] decodes the JSON texts built from [null], [true],
    [false], integers, strings without escapes, arrays and objects, as
    [json.loads] does, and rejects every other text (among them the ones
    with fractions, exponents or escapes, which [json.loads] accepts). It
    instantiates [json_loads] where a handler is run on a concrete request;
    the general statements hold for any decoder. *)

Module JsonCore.

Definition dquote : ascii := "034"%char.

Definition is_ws (c : ascii) : bool :=
  let n := nat_of_ascii c in
  orb (orb (Nat.eqb n 32) (Nat.eqb n 9)) (orb (Nat.eqb n 10) (Nat.eqb n 13)).

Fixpoint skip_ws (s : string) : string :=
  match s with
  | String c s' => if is_ws c then skip_ws s' else s
  | EmptyString => EmptyString
  end.

Definition digit_of (c : ascii) : option Z :=
  let n := nat_of_ascii c in
  if andb (Nat.leb 48 n) (Nat.leb n 57) then Some (Z.of_nat (n - 48)) else None.

(** The digits at the head of [s], as a number, with their count. *)
Fixpoint digits (s : string) (acc : Z) (count : nat) : Z * nat * string :=
  match s with
  | String c s' =>
      match digit_of c with
      | Some d => digits s' (10 * acc + d)%Z (S count)
      | None => (acc, count, s)
      end
  | EmptyString => (acc, count, s)
  end.

Definition starts_fraction (s : string) : bool :=
  match s with
  | String c _ => Py.in_chars c ".eE"
  | EmptyString => false
  end.

(** An optional minus sign, then 0 or a run of digits that does not start
    with 0; not followed by a fraction or an exponent. *)
Definition integer (s : string) : option (Z * string) :=
  let (neg, s1) :=
    match s with
    | String "-" s' => (true, s')
    | _ => (false, s)
    end in
  match s1 with
  | String "0" rest =>
      if starts_fraction rest then None else Some (0%Z, rest)
  | _ =>
      match digits s1 0%Z 0 with
      | (_, O, _) => None
      | (n, _, rest) =>
          if starts_fraction rest then None
          else Some (if neg then (- n)%Z else n, rest)
      end
  end.

(** The characters up to the closing quote; no escapes, no control
    characters. *)
Fixpoint chars (s : string) : option (string * string) :=
  match s with
  | EmptyString => None
  | String c s' =>
      if Ascii.eqb c dquote then Some (EmptyString, s')
      else if orb (Ascii.eqb c "\") (Nat.ltb (nat_of_ascii c) 32) then None
      else match chars s' with
           | Some (str, rest) => Some (String c str, rest)
           | None => None
           end
  end.

Fixpoint expect (lit s : string) : option string :=
  match lit with
  | EmptyString => Some s
  | String c lit' =>
      match s with
      | String c' s' => if Ascii.eqb c c' then expect lit' s' else None
      | EmptyString => None
      end
  end.

Fixpoint value (fuel : nat) (s : string) {struct fuel} : option (json * string) :=
  match fuel with
  | O => None
  | S fuel' =>
      match skip_ws s with
      | String "n" _ as t => option_map (pair JNull) (expect "null" t)
      | String "t" _ as t => option_map (pair (JBool true)) (expect "true" t)
      | String "f" _ as t => option_map (pair (JBool false)) (expect "false" t)
      | String "[" rest =>
          match skip_ws rest with
          | String "]" rest' => Some (JList [], rest')
          | _ => elements fuel' rest []
          end
      | String "{" rest =>
          match skip_ws rest with
          | String "}" rest' => Some (JDict [], rest')
          | _ => members fuel' rest []
          end
      | String c rest as t =>
          if Ascii.eqb c dquote then
            match chars rest with
            | Some (str, rest') => Some (JStr str, rest')
            | None => None
            end
          else
            match integer t with
            | Some (n, rest') => Some (JInt n, rest')
            | None => None
            end
      | EmptyString => None
      end
  end
with elements (fuel : nat) (s : string) (acc : list json) {struct fuel}
    : option (json * string) :=
  match fuel with
  | O => None
  | S fuel' =>
      match value fuel' s with
      | Some (v, rest) =>
          match skip_ws rest with
          | String "," rest' => elements fuel' rest' (acc ++ [v])
          | String "]" rest' => Some (JList (acc ++ [v]), rest')
          | _ => None
          end
      | None => None
      end
  end
with members (fuel : nat) (s : string) (acc : list (string * json)) {struct fuel}
    : option (json * string) :=
  match fuel with
  | O => None
  | S fuel' =>
      match skip_ws s with
      | String c rest =>
          if Ascii.eqb c dquote then
            match chars rest with
            | Some (key, rest1) =>
                match skip_ws rest1 with
                | String ":" rest2 =>
                    match value fuel' rest2 with
                    | Some (v, rest3) =>
                        match skip_ws rest3 with
                        | String "," rest4 => members fuel' rest4 (dict_set acc key v)
                        | String "}" rest4 => Some (JDict (dict_set acc key v), rest4)
                        | _ => None
                        end
                    | None => None
                    end
                | _ => None
                end
            | None => None
            end
          else None
      | EmptyString => None
      end
  end.

Definition loads (s : string) : option json :=
  match value (2 * String.length s + 2) s with
  | Some (v, rest) =>
      match skip_ws rest with
      | EmptyString => Some v
      | _ => None
      end
  | None => None
  end.

(** [q s] is [s] between double quotes. *)
Definition q (s : string) : string :=
  String dquote (s ++ String dquote EmptyString).

End JsonCore.

(** ** A concrete environment and concrete requests

    One homeserver and one account, to run the handlers: the password [p]
    logs in and yields the token [abc]; a room has no outbound group session
    until one has been shared; every forwarded request is answered 404. *)

Module Demo.

Definition shared_before (history : list event) (c : PantaClient)
    (room_id : string) : bool :=
  existsb (fun e =>
             match e with
             | ShareGroupSession c' room =>
                 andb (Nat.eqb (client_id c') (client_id c)) (String.eqb room room_id)
             | _ => false
             end) history.

(** [JsonCore.loads] as a decoder that raises. *)
Definition decode (s : string) : result json :=
  match JsonCore.loads s with
  | Some j => Ok j
  | None => Raise JSONDecodeError
  end.

Definition env : Environment := {|
  json_loads := decode;
  session_request := fun _ _ _ => mkTransport 404 "not found";
  client_login := fun _ _ password _ =>
    match password with
    | JStr s =>
        if String.eqb s "p" then LoginResponse "abc" (mkTransport 200 "welcome")
        else LoginError (mkTransport 403 "forbidden")
    | _ => LoginError (mkTransport 403 "forbidden")
    end;
  client_sync := fun _ _ _ _ => SyncResponse (mkTransport 200 "{}");
  should_upload_keys := fun _ _ => true;
  should_query_keys := fun _ _ => true;
  keys_query := fun _ _ =>
    KeysQueryResponse
      [("@bob:example.org",
        [("DEVA", mkDevice "DEVA" false); ("DEVB", mkDevice "DEVB" true)])];
  decrypt_sync_body := fun _ _ body => body;
  room_send := fun history c room_id _ _ _ =>
    if shared_before history c room_id then Ok (mkTransport 200 "sent")
    else Raise GroupEncryptionError
|}.

(** The daemon as [main] starts it without [--proxy] and without [-k]. *)
Definition w0 : World :=
  init "https://example.org" "/var/lib/pantalaimon" None (ssl_of_flag false).

Definition login_path : string := "/_matrix/client/r0/login".
Definition sync_path : string := "/_matrix/client/r0/sync".
Definition send_path : string :=
  "/_matrix/client/r0/rooms/!room:example.org/send/m.room.message/txn1".

(** The body with user alice and password [pw]. *)
Definition login_body (pw : string) : string :=
  "{" ++ JsonCore.q "user" ++ ":" ++ JsonCore.q "alice" ++ ","
      ++ JsonCore.q "password" ++ ":" ++ JsonCore.q pw ++ "}".

Definition login_request (pw : string) : Request :=
  mkRequest "POST" login_path [] [("Host", "localhost:8009")] (login_body pw) [].

(** The world after alice has logged in. *)
Definition w1 : World := snd (login env (login_request "p") w0).

Definition alice : PantaClient :=
  mkPantaClient 0 "https://example.org" (JStr "alice") (JStr "")
                "/var/lib/pantalaimon" SslNone None.

Definition sync_request (token : string) (filter : option string) : Request :=
  mkRequest "GET" sync_path
    (("access_token", token) ::
     match filter with Some f => [("filter", f)] | None => [] end)
    [] "" [].

Definition send_request (token body : string) : Request :=
  mkRequest "PUT" send_path [("access_token", token)] [] body
    [("room_id", "!room:example.org"); ("event_type", "m.room.message");
     ("txnid", "txn1")].

Definition message_body : string :=
  "{" ++ JsonCore.q "body" ++ ":" ++ JsonCore.q "hello" ++ "}".

(** An unmatched request, with the credential in the header or none. *)
Definition versions_request (hdrs : multidict) : Request :=
  mkRequest "GET" "/_matrix/client/versions" [] hdrs "" [].

End Demo.

(** ** Vocabulary of the properties *)

(** [web.Response(status=t.status, text=await t.text())] *)
Definition relay (t : TransportResponse) : Response :=
  mkResponse (tr_status t) (Raw (tr_text t)).

(** [ends_outside chars t]: the last character of [t] is not in [chars]. *)
Fixpoint ends_outside (chars t : string) : bool :=
  match t with
  | EmptyString => false
  | String c EmptyString => negb (Py.in_chars c chars)
  | String _ t' => ends_outside chars t'
  end.

(** [quiet Q m]: run on any world, [m] leaves [default_session] as it was
    and appends to the log only events that satisfy [Q]. *)
Definition quiet {A} (Q : event -> Prop) (m : M A) : Prop :=
  forall w,
    default_session (self (snd (m w))) = default_session (self w)
    /\ exists delta, log (snd (m w)) = (log w ++ delta)%list /\ Forall Q delta.

(** [ClientSession()] constructions. *)
Definition is_construction (e : event) : bool :=
  match e with
  | NewClientSession _ => true
  | _ => false
  end.

(** The events that concern a session no client owns: its construction and
    the requests sent through it. *)
Definition is_anonymous (e : event) : bool :=
  match e with
  | NewClientSession _ => true
  | SessionRequest (AnonymousSession _) _ => true
  | _ => false
  end.

Definition anonymous_events (l : list event) : list event := filter is_anonymous l.

Definition request_through (s : ClientSession) (e : event) : Prop :=
  exists o, e = SessionRequest s o.

(** Either no anonymous session exists and none was ever made or used, or
    the daemon holds one, made once, used right after it was made, and every
    anonymous request went through it. *)
Inductive anonymous_state (w : World) : Prop :=
| anonymous_unused :
    default_session (self w) = None ->
    anonymous_events (log w) = [] ->
    anonymous_state w
| anonymous_in_use (id : nat) (o : Outbound) (rest : list event) :
    default_session (self w) = Some (AnonymousSession id) ->
    anonymous_events (log w)
    = NewClientSession (AnonymousSession id)
      :: SessionRequest (AnonymousSession id) o :: rest ->
    Forall (request_through (AnonymousSession id)) rest ->
    anonymous_state w.

(** The life of one daemon: [init], the requests it serves, then the
    [on_shutdown] hook. *)
Definition lifecycle (env : Environment) (homeserver data_dir : string)
    (http_proxy : option string) (ssl : ssl_opt)
    (requests : list (route * Request)) : World :=
  snd (shutdown (serve env requests (init homeserver data_dir http_proxy ssl))).

(** Every character of [s] occurs in [chars]. *)
Fixpoint all_in (chars s : string) : bool :=
  match s with
  | EmptyString => true
  | String c s' => andb (Py.in_chars c chars) (all_in chars s')
  end.

(** [steps R m]: run on any world [w], [m] ends, returning or raising, in
    a world that [R] relates to [w]. *)
Definition steps {A} (R : World -> World -> Prop) (m : M A) : Prop :=
  forall w, R w (snd (m w)).

(** The settings the daemon is constructed with. *)
Definition config (d : ProxyDaemon) : string * string * option string * ssl_opt :=
  (homeserver d, data_dir d, proxy d, ssl d).

(** The tokens of the registry, in its order. *)
Definition tokens (w : World) : list string := map fst (client_sessions (self w)).

Definition registered (w : World) (token : string) : Prop :=
  dict_get (client_sessions (self w)) token <> None.

(** The daemon object is the same. *)
Definition same_self (w w' : World) : Prop := self w' = self w.

(** The registry and the settings are the same. *)
Definition same_registry (w w' : World) : Prop :=
  client_sessions (self w') = client_sessions (self w)
  /\ config (self w') = config (self w).

(** The settings are the same, the tokens stay distinct and no token is
    lost. *)
Definition registry_grows (w w' : World) : Prop :=
  config (self w') = config (self w)
  /\ (NoDup (tokens w) -> NoDup (tokens w'))
  /\ forall token, registered w token -> registered w' token.


(** [next_id] moved on by one: an object was constructed. *)
Definition bump (w : World) : World := mkWorld (self w) (log w) (S (next_id w)).

(** [session.close()] calls, and the sessions closed or constructed. *)
Definition is_session_close (e : event) : bool :=
  match e with
  | SessionClose _ => true
  | _ => false
  end.


(** The devices handed to [client.verify_device], in order. *)
Fixpoint verified_devices (l : list event) : list Device :=
  match l with
  | [] => []
  | VerifyDevice _ d :: l' => d :: verified_devices l'
  | _ :: l' => verified_devices l'
  end.

(** The devices of a [changed] map, user by user. *)
Definition changed_devices (changed : dict (dict Device)) : list Device :=
  flat_map (fun user_devices => dict_values (snd user_devices)) changed.

(** The calls of the key maintenance of [sync]. *)
Definition is_key_maintenance (e : event) : Prop :=
  match e with
  | KeysUpload _ | KeysQuery _ | Print _ | VerifyDevice _ _ => True
  | _ => False
  end.

(** The daemon with another registry. *)
Definition with_client_sessions (d : ProxyDaemon) (cs : dict PantaClient) : ProxyDaemon :=
  mkProxyDaemon (homeserver d) (data_dir d) (proxy d) (ssl d) cs (default_session d).

(** What [verify_devices] logs: a line and a verification for each device
    that is not marked deleted. *)
Definition verification_events (client : PantaClient) (changed : dict (dict Device))
    : list event :=
  flat_map (fun user_devices =>
              flat_map (fun device =>
                          if dev_deleted device then []
                          else [Print ("Automatically verifying device " ++ dev_id device);
                                VerifyDevice client device])
                       (dict_values (snd user_devices)))
           changed.

(** The environment of [Demo] with a homeserver that fails every sync. *)
Definition env_sync_fails : Environment := {|
  json_loads := json_loads Demo.env;
  session_request := session_request Demo.env;
  client_login := client_login Demo.env;
  client_sync := fun _ _ _ _ =>
    SyncError (mkTransport 502 "bad gateway");
  should_upload_keys := should_upload_keys Demo.env;
  should_query_keys := should_query_keys Demo.env;
  keys_query := keys_query Demo.env;
  decrypt_sync_body := decrypt_sync_body Demo.env;
  room_send := room_send Demo.env
|}.

(** * Properties *)

Unset Implicit Arguments.

(** ** Basic facts *)

Lemma truthy_str_false (s : string) : Py.truthy_str s = false <-> s = "".
Proof. destruct s; simpl; split; congruence. Qed.

Lemma truthy_str_true (s : string) : Py.truthy_str s = true <-> s <> "".
Proof. destruct s; simpl; split; congruence. Qed.

(** Unfolds the monad, so that a handler run on a world computes. *)
Ltac run :=
  unfold bind, ret, raise, try_except, get_self, tell, match_info_get; cbn.

Lemma bind_ok {A B} (m : M A) (k : A -> M B) (w w1 : World) (a : A) :
  m w = (Ok a, w1) -> bind m k w = k a w1.
Proof. intro H. unfold bind. now rewrite H. Qed.

(** ** Credential extraction *)

(** A non-empty [access_token] query parameter is the credential. *)
Lemma get_access_token_query (request : Request) (t : string) :
  md_get (query request) "access_token" = Some t -> t <> "" ->
  get_access_token request = t.
Proof.
  intros Hq Ht. unfold get_access_token. rewrite Hq. cbn.
  apply truthy_str_true in Ht. now rewrite Ht.
Qed.

(** Without the query parameter and without the header the credential is
    empty. *)
Lemma get_access_token_absent (request : Request) :
  md_get (query request) "access_token" = None ->
  cimd_get (headers request) "Authorization" = None ->
  get_access_token request = "".
Proof.
  intros Hq Hh. unfold get_access_token. rewrite Hq, Hh. reflexivity.
Qed.

(** Otherwise the credential is the [Authorization] header, stripped. *)
Lemma get_access_token_header (request : Request) :
  get_default (md_get (query request) "access_token") "" = "" ->
  get_access_token request
  = Py.strip "Bearer " (get_default (cimd_get (headers request) "Authorization") "").
Proof. intro Hq. unfold get_access_token. rewrite Hq. reflexivity. Qed.

Lemma rstrip_ends_outside (chars t : string) :
  ends_outside chars t = true -> Py.rstrip chars t = t.
Proof.
  induction t as [| c t IH]; cbn; [discriminate|].
  destruct t as [| c' t'].
  - cbn. intro H. apply negb_true_iff in H. now rewrite H.
  - intro H. rewrite (IH H). reflexivity.
Qed.

(** The strip is the prefix strip of the specification exactly on the tokens
    that neither begin nor end with one of the characters of [Bearer ]. *)
Lemma get_access_token_bearer (request : Request) (c : ascii) (t : string) :
  md_get (query request) "access_token" = None ->
  cimd_get (headers request) "Authorization" = Some ("Bearer " ++ String c t) ->
  Py.in_chars c "Bearer " = false ->
  ends_outside "Bearer " (String c t) = true ->
  get_access_token request = String c t.
Proof.
  intros Hq Hh Hc Hend. unfold get_access_token. rewrite Hq, Hh. cbn - [Py.in_chars Py.rstrip].
  unfold Py.strip. cbn - [Py.in_chars Py.rstrip]. rewrite Hc.
  now apply rstrip_ends_outside.
Qed.

(** C2, evaluated: with no [access_token] in the query, [get_access_token]
    strips the characters of [Bearer ] as a set from both ends of the header
    value. The header [Bearer abcde] yields [bcd], not [abcde]: the leading
    [a] and the trailing [e] of the token are stripped with the prefix. *)
Lemma C2_strip_is_not_a_prefix_strip :
  let request := Demo.versions_request [("Authorization", "Bearer abcde")] in
  md_get (query request) "access_token" = None
  /\ cimd_get (headers request) "Authorization" = Some "Bearer abcde"
  /\ get_access_token request = "bcd"
  /\ get_access_token request <> "abcde".
Proof. repeat split; try reflexivity. vm_compute. discriminate. Qed.

(** ** The generic forwarder *)

Section Forwarder.
Variable env : Environment.

(** The one call [forward_request] makes: method, path, query, body kept;
    the first [Host] header dropped; the configured proxy; [ssl=False]. *)
Lemma forward_request_spec (request : Request) (session : ClientSession) (w : World) :
  let o := mkOutbound (method request) (homeserver (self w) ++ path request)
             (body_text request) (query request)
             (cimd_pop (headers request) "Host") (proxy (self w)) SslFalse in
  forward_request env request session w
  = (Ok (session_request env (log w) session o), emit (SessionRequest session o) w).
Proof. reflexivity. Qed.

(** Whatever the upstream status, the router answers 200; the text is the
    upstream text. [w1] is the world in which the request is sent: [w], or
    [w] with a default session just constructed. *)
Lemma router_response (request : Request) (w : World) :
  exists session o w1,
    router env request w
    = (Ok (mkResponse 200 (Raw (tr_text (session_request env (log w1) session o)))),
       emit (SessionRequest session o) w1).
Proof.
  unfold router. run.
  destruct (dict_get (client_sessions (self w)) (get_access_token request)) as [c|].
  - do 3 eexists. reflexivity.
  - destruct (default_session (self w)) as [s|]; do 3 eexists; reflexivity.
Qed.
End Forwarder.

(** C1, evaluated: an unmatched request whose upstream answer is 404 is
    answered 200 by [router]; the text is relayed, the status is not. *)
Lemma C1_router_drops_upstream_status :
  let request := Demo.versions_request [("Host", "localhost:8009")] in
  let session := AnonymousSession 0 in
  let o := mkOutbound "GET" "https://example.org/_matrix/client/versions" "" [] []
             None SslFalse in
  session_request Demo.env [NewClientSession session] session o
  = mkTransport 404 "not found"
  /\ fst (router Demo.env request Demo.w0) = Ok (mkResponse 200 (Raw "not found"))
  /\ log (snd (router Demo.env request Demo.w0))
     = [NewClientSession session; SessionRequest session o].
Proof. repeat split. Qed.

(** C8, evaluated: the daemon is started without [-k], so its [ssl] setting
    is [None] and upstream certificates are to be verified; the request the
    forwarder sends carries [ssl=False] all the same. The configured proxy
    is applied. *)
Lemma C8_forwarder_never_verifies_tls :
  let w := init "https://example.org" "/var/lib/pantalaimon"
             (Some "http://proxy.example:3128") (ssl_of_flag false) in
  let request := Demo.versions_request [("Host", "localhost:8009")] in
  ssl (self w) = SslNone
  /\ exists o, log (snd (router Demo.env request w))
               = [NewClientSession (AnonymousSession 0);
                  SessionRequest (AnonymousSession 0) o]
     /\ o_proxy o = Some "http://proxy.example:3128"
     /\ o_ssl o = SslFalse.
Proof. split; [reflexivity|]. eexists. repeat split. Qed.

(** ** Token checks of [sync] and [send_message] *)

Section TokenChecks.
Variable env : Environment.

(** C4. When the extracted credential is empty, [sync] and [send_message]
    return 401 with errcode M_MISSING_TOKEN; when it is not empty and is
    not a key of the registry, they return 401 with errcode
    M_UNKNOWN_TOKEN. In both cases the world is left as it was: nothing is
    appended to the log, so neither upstream nor any client operation was
    called. *)
Theorem C4_missing_and_unknown_token (request : Request) (w : World) :
  (get_access_token request = "" ->
     sync env request w = (Ok _missing_token, w)
     /\ send_message env request w = (Ok _missing_token, w))
  /\ (get_access_token request <> "" ->
      dict_get (client_sessions (self w)) (get_access_token request) = None ->
      sync env request w = (Ok _unknown_token, w)
      /\ send_message env request w = (Ok _unknown_token, w))
  /\ _missing_token
     = mkResponse 401 (Dumps (JDict [("errcode", JStr "M_MISSING_TOKEN");
                                     ("error", JStr "Missing access token.")]))
  /\ _unknown_token
     = mkResponse 401 (Dumps (JDict [("errcode", JStr "M_UNKNOWN_TOKEN");
                                     ("error", JStr "Unrecognised access token.")])).
Proof.
  split; [intro Hempty | split; [intros Ht Hnone | split; reflexivity]].
  - unfold sync, send_message. rewrite Hempty. split; reflexivity.
  - apply truthy_str_true in Ht.
    unfold sync, send_message. rewrite Ht. run. rewrite Hnone. split; reflexivity.
Qed.

(** C10. [send_message] checks the token before it reads the body: with a
    non-empty credential that is not in the registry the answer is 401
    M_UNKNOWN_TOKEN whatever the body is, malformed JSON included; an
    answer with status 400, and so the M_NOT_JSON answer, comes only from
    a request whose credential is in the registry; and such a request with
    a body that does not decode is answered 400 M_NOT_JSON. *)
Theorem C10_token_checks_before_body (request : Request) (w : World) :
  (get_access_token request <> "" ->
   dict_get (client_sessions (self w)) (get_access_token request) = None ->
   send_message env request w = (Ok _unknown_token, w))
  /\ (forall r w',
        send_message env request w = (Ok r, w') -> status r = 400%Z ->
        exists client,
          dict_get (client_sessions (self w)) (get_access_token request) = Some client)
  /\ (forall client msgtype room_id txnid,
        get_access_token request <> "" ->
        dict_get (client_sessions (self w)) (get_access_token request) = Some client ->
        md_get (match_info request) "event_type" = Some msgtype ->
        md_get (match_info request) "room_id" = Some room_id ->
        md_get (match_info request) "txnid" = Some txnid ->
        json_loads env (body_text request) = Raise JSONDecodeError ->
        send_message env request w = (Ok _not_json, w))
  /\ _not_json
     = mkResponse 400 (Dumps (JDict [("errcode", JStr "M_NOT_JSON");
                                     ("error", JStr "Request did not contain valid JSON.")])).
Proof.
  repeat split.
  - intros Ht Hnone. unfold send_message.
    apply truthy_str_true in Ht. rewrite Ht. run. now rewrite Hnone.
  - intros r w'. unfold send_message.
    destruct (Py.truthy_str (get_access_token request)); cbn.
    + run.
      destruct (dict_get (client_sessions (self w)) (get_access_token request)) as [c|].
      * intros _ _. now exists c.
      * intros H Hs. inversion H; subst. discriminate.
    + intros H Hs. inversion H; subst. discriminate.
  - intros client msgtype room_id txnid Ht Hc He Hr Hx Hj. unfold send_message.
    apply truthy_str_true in Ht. rewrite Ht. run.
    rewrite Hc, He. cbn. rewrite Hr. cbn. rewrite Hx. cbn. now rewrite Hj.
Qed.
End TokenChecks.

Lemma C4_witness :
  (sync Demo.env (Demo.sync_request "" None) Demo.w1 = (Ok _missing_token, Demo.w1)
   /\ send_message Demo.env (Demo.sync_request "" None) Demo.w1
      = (Ok _missing_token, Demo.w1))
  /\ (sync Demo.env (Demo.sync_request "xyz" None) Demo.w1 = (Ok _unknown_token, Demo.w1)
      /\ send_message Demo.env (Demo.sync_request "xyz" None) Demo.w1
         = (Ok _unknown_token, Demo.w1)).
Proof.
  split.
  - apply (proj1 (C4_missing_and_unknown_token Demo.env (Demo.sync_request "" None) Demo.w1)).
    reflexivity.
  - apply (proj1 (proj2 (C4_missing_and_unknown_token Demo.env
                           (Demo.sync_request "xyz" None) Demo.w1))).
    + vm_compute. discriminate.
    + reflexivity.
Defined.

Lemma C10_witness :
  JsonCore.loads "{" = None
  /\ send_message Demo.env (Demo.send_request "xyz" "{") Demo.w1
     = (Ok _unknown_token, Demo.w1)
  /\ send_message Demo.env (Demo.send_request "abc" "{") Demo.w1
     = (Ok _not_json, Demo.w1).
Proof.
  split; [reflexivity|]. split.
  - apply (proj1 (C10_token_checks_before_body Demo.env
                    (Demo.send_request "xyz" "{") Demo.w1)).
    + vm_compute. discriminate.
    + reflexivity.
  - apply (proj1 (proj2 (proj2 (C10_token_checks_before_body Demo.env
                                  (Demo.send_request "abc" "{") Demo.w1)))
             Demo.alice "m.room.message" "!room:example.org" "txn1").
    + vm_compute. discriminate.
    + reflexivity.
    + reflexivity.
    + reflexivity.
    + reflexivity.
    + reflexivity.
Defined.

(** ** The retry of [send_message] *)

Section SendRetry.
Variable env : Environment.

(** Whatever the request, [send_message] calls nothing, or sends once, or
    sends, shares and sends again. *)
Lemma send_message_calls (request : Request) (w : World) :
  exists delta,
    log (snd (send_message env request w)) = (log w ++ delta)%list
    /\ (delta = []
        \/ exists client room_id msgtype content txnid,
             delta = [RoomSend client room_id msgtype content txnid]
             \/ delta = [RoomSend client room_id msgtype content txnid;
                         ShareGroupSession client room_id;
                         RoomSend client room_id msgtype content txnid]).
Proof.
  assert (Hnil : forall l : list event, l = (l ++ [])%list)
    by (intro; now rewrite app_nil_r).
  unfold send_message.
  destruct (Py.truthy_str (get_access_token request)); cbn;
    [| exists []; split; [apply Hnil | now left]].
  run.
  destruct (dict_get (client_sessions (self w)) (get_access_token request)) as [c|];
    [| exists []; split; [apply Hnil | now left]].
  destruct (md_get (match_info request) "event_type") as [msgtype|]; cbn;
    [| exists []; split; [apply Hnil | now left]].
  destruct (md_get (match_info request) "room_id") as [room_id|]; cbn;
    [| exists []; split; [apply Hnil | now left]].
  destruct (md_get (match_info request) "txnid") as [txnid|]; cbn;
    [| exists []; split; [apply Hnil | now left]].
  destruct (json_loads env (body_text request)) as [content | []]; cbn;
    try (exists []; split; [apply Hnil | now left]).
  destruct (room_send env (log w) c room_id msgtype content txnid) as [t | e]; cbn.
  - eexists. split; [reflexivity|]. right. exists c, room_id, msgtype, content, txnid.
    now left.
  - destruct e; cbn;
      try (eexists; split; [reflexivity|]; right;
           exists c, room_id, msgtype, content, txnid; now left).
    destruct (room_send env _ c room_id msgtype content txnid); cbn;
      (eexists; split; [rewrite <- !app_assoc; reflexivity|]; right;
       exists c, room_id, msgtype, content, txnid; now right).
Qed.

(** C3. A request that passes the token checks, has its three path
    parameters and a body that decodes reaches the send. If the first
    [room_send] raises [GroupEncryptionError], the handler calls
    [share_group_session] once for that room and [room_send] once more,
    and surfaces what the second send does: its response is relayed, its
    exception (of any kind, [GroupEncryptionError] included) is raised to
    the caller; nothing else is called. In every other case (a response,
    or another exception) the first send is the only call and its outcome
    is surfaced. *)
Theorem C3_one_share_one_retry (request : Request) (w : World)
    (client : PantaClient) (msgtype room_id txnid : string) (content : json) :
  get_access_token request <> "" ->
  dict_get (client_sessions (self w)) (get_access_token request) = Some client ->
  md_get (match_info request) "event_type" = Some msgtype ->
  md_get (match_info request) "room_id" = Some room_id ->
  md_get (match_info request) "txnid" = Some txnid ->
  json_loads env (body_text request) = Ok content ->
  let send := RoomSend client room_id msgtype content txnid in
  let share := ShareGroupSession client room_id in
  let answer history := room_send env history client room_id msgtype content txnid in
  let surfaced (a : result TransportResponse) :=
    match a with Ok t => Ok (relay t) | Raise e => Raise e end in
  let after calls := mkWorld (self w) (log w ++ calls) (next_id w) in
  match answer (log w) with
  | Raise GroupEncryptionError =>
      send_message env request w
      = (surfaced (answer (log w ++ [send; share])%list), after [send; share; send])
  | first =>
      send_message env request w = (surfaced first, after [send])
  end.
Proof.
  intros Ht Hc He Hr Hx Hj. cbv zeta.
  unfold send_message. apply truthy_str_true in Ht. rewrite Ht. run.
  rewrite Hc, He. cbn. rewrite Hr. cbn. rewrite Hx. cbn. rewrite Hj.
  unfold room_send_call, emit. cbn.
  destruct (room_send env (log w) client room_id msgtype content txnid)
    as [t | e] eqn:Hfirst.
  - reflexivity.
  - destruct e; try reflexivity.
    cbn. rewrite <- !app_assoc. cbn.
    destruct (room_send env (log w ++ _) client room_id msgtype content txnid);
      reflexivity.
Qed.
End SendRetry.

Lemma C3_witness :
  let send := RoomSend Demo.alice "!room:example.org" "m.room.message"
                (JDict [("body", JStr "hello")]) "txn1" in
  let share := ShareGroupSession Demo.alice "!room:example.org" in
  send_message Demo.env (Demo.send_request "abc" Demo.message_body) Demo.w1
  = (Ok (mkResponse 200 (Raw "sent")),
     mkWorld (self Demo.w1) (log Demo.w1 ++ [send; share; send]) 1).
Proof.
  refine (C3_one_share_one_retry Demo.env (Demo.send_request "abc" Demo.message_body)
            Demo.w1 Demo.alice "m.room.message" "!room:example.org" "txn1"
            (JDict [("body", JStr "hello")]) _ eq_refl eq_refl eq_refl eq_refl eq_refl).
  vm_compute. discriminate.
Defined.

(** A second failure in a row is raised to the caller after one share and
    one retry: here no share ever makes the send succeed. *)
Example send_second_failure_surfaced :
  let env := mkEnvironment Demo.decode (session_request Demo.env)
               (client_login Demo.env) (client_sync Demo.env)
               (should_upload_keys Demo.env) (should_query_keys Demo.env)
               (keys_query Demo.env) (decrypt_sync_body Demo.env)
               (fun _ _ _ _ _ _ => Raise GroupEncryptionError) in
  let send := RoomSend Demo.alice "!room:example.org" "m.room.message"
                (JDict [("body", JStr "hello")]) "txn1" in
  let share := ShareGroupSession Demo.alice "!room:example.org" in
  send_message env (Demo.send_request "abc" Demo.message_body) Demo.w1
  = (Raise GroupEncryptionError,
     mkWorld (self Demo.w1) (log Demo.w1 ++ [send; share; send]) 1).
Proof. reflexivity. Qed.

(** ** What a computation appends to the log *)

Section Quiet.
Variable Q : event -> Prop.

Lemma quiet_ret {A} (a : A) : quiet Q (ret a).
Proof. intro w. split; [reflexivity|]. exists []. now rewrite app_nil_r. Qed.

Lemma quiet_raise {A} (e : exn) : quiet Q (@raise A e).
Proof. intro w. split; [reflexivity|]. exists []. now rewrite app_nil_r. Qed.

Lemma quiet_get_self : quiet Q get_self.
Proof. intro w. split; [reflexivity|]. exists []. now rewrite app_nil_r. Qed.

Lemma quiet_bind {A B} (m : M A) (k : A -> M B) :
  quiet Q m -> (forall a, quiet Q (k a)) -> quiet Q (bind m k).
Proof.
  intros Hm Hk w. unfold bind.
  destruct (Hm w) as [Hd [delta [Hl HQ]]].
  destruct (m w) as [[a | e] w1]; cbn in *.
  - destruct (Hk a w1) as [Hd' [delta' [Hl' HQ']]].
    split; [congruence|].
    exists (delta ++ delta')%list. split.
    + rewrite Hl', Hl. now rewrite app_assoc.
    + now apply Forall_app.
  - split; [assumption|]. now exists delta.
Qed.

Lemma quiet_try_except {A} (m : M A) (handler : exn -> M A) :
  quiet Q m -> (forall e, quiet Q (handler e)) -> quiet Q (try_except m handler).
Proof.
  intros Hm Hh w. unfold try_except.
  destruct (Hm w) as [Hd [delta [Hl HQ]]].
  destruct (m w) as [[a | e] w1]; cbn in *.
  - split; [assumption|]. now exists delta.
  - destruct (Hh e w1) as [Hd' [delta' [Hl' HQ']]].
    split; [congruence|].
    exists (delta ++ delta')%list. split.
    + rewrite Hl', Hl. now rewrite app_assoc.
    + now apply Forall_app.
Qed.

Lemma quiet_tell (e : event) : Q e -> quiet Q (tell e).
Proof.
  intros He w. split; [reflexivity|]. exists [e]. split; [reflexivity|].
  now constructor.
Qed.

(** A call to the outside: the world it leaves is [emit e]. *)
Lemma quiet_call {A} (answer : World -> result A) (e : event) :
  Q e -> quiet Q (fun w => (answer w, emit e w)).
Proof.
  intros He w. split; [reflexivity|]. exists [e]. split; [reflexivity|].
  now constructor.
Qed.

(** Reading a property of a client appends nothing. *)
Lemma quiet_read {A} (answer : World -> result A) :
  quiet Q (fun w => (answer w, w)).
Proof. intro w. split; [reflexivity|]. exists []. now rewrite app_nil_r. Qed.

Lemma quiet_for_each {A} (l : list A) (body : A -> M unit) :
  (forall x, quiet Q (body x)) -> quiet Q (for_each l body).
Proof.
  intro Hb. induction l as [| x l IH]; cbn.
  - apply quiet_ret.
  - apply quiet_bind; [apply Hb | intros _; exact IH].
Qed.

Lemma quiet_set_client_session (token : string) (client : PantaClient) :
  quiet Q (set_client_session token client).
Proof. intro w. split; [reflexivity|]. exists []. now rewrite app_nil_r. Qed.

Lemma quiet_new_PantaClient hs user device_id store ssl_ proxy_ :
  (forall c, Q (NewPantaClient c)) ->
  quiet Q (new_PantaClient hs user device_id store ssl_ proxy_).
Proof.
  intros H w. split; [reflexivity|]. eexists [_]. split; [reflexivity|].
  constructor; [apply H | constructor].
Qed.

Lemma quiet_py_get (x : json) (key : string) (default : json) :
  quiet Q (py_get x key default).
Proof. destruct x; cbn; (apply quiet_ret || apply quiet_raise). Qed.

Lemma quiet_match_info_get (request : Request) (key : string) :
  quiet Q (match_info_get request key).
Proof.
  unfold match_info_get.
  destruct (md_get (match_info request) key); (apply quiet_ret || apply quiet_raise).
Qed.
End Quiet.

(** Takes a handler apart along its binds and branches. [side] proves [Q]
    of each event the handler emits. *)
Ltac quiet_with side :=
  repeat
    match goal with
    | |- forall _, _ => intro
    | |- quiet _ (bind _ _) => apply quiet_bind
    | |- quiet _ (try_except _ _) => apply quiet_try_except
    | |- quiet _ (ret _) => apply quiet_ret
    | |- quiet _ (raise _) => apply quiet_raise
    | |- quiet _ get_self => apply quiet_get_self
    | |- quiet _ (tell _) => apply quiet_tell; side
    | |- quiet _ (for_each _ _) => apply quiet_for_each
    | |- quiet _ (py_get _ _ _) => apply quiet_py_get
    | |- quiet _ (match_info_get _ _) => apply quiet_match_info_get
    | |- quiet _ (set_client_session _ _) => apply quiet_set_client_session
    | |- quiet _ (new_PantaClient _ _ _ _ _ _) => apply quiet_new_PantaClient; side
    | |- quiet _ (session_request_call _ _ _) => apply quiet_call; side
    | |- quiet _ (client_login_call _ _ _ _) => apply quiet_call; side
    | |- quiet _ (client_sync_call _ _ _ _) => apply quiet_call; side
    | |- quiet _ (keys_query_call _ _) => apply quiet_call; side
    | |- quiet _ (decrypt_sync_body_call _ _ _) => apply quiet_call; side
    | |- quiet _ (room_send_call _ _ _ _ _ _) => apply quiet_call; side
    | |- quiet _ (read_should_upload_keys _ _) => apply quiet_read
    | |- quiet _ (read_should_query_keys _ _) => apply quiet_read
    | |- quiet _ (transport_json _ _) => unfold transport_json
    | |- quiet _ (lift _) => apply quiet_read
    | |- quiet _ (verify_devices _ _) => unfold verify_devices
    | |- quiet _ (_get_login_user _) => unfold _get_login_user
    | |- quiet _ (match ?x with _ => _ end) => destruct x
    end.

(** ** The [filter] of [sync] *)

Section SyncFilter.
Variable env : Environment.

(** When the filter decodes, the first call of [sync] is [client.sync] with
    the [timeout] of the query and the decoded filter. *)
Lemma sync_calls_client_sync (request : Request) (w : World)
    (client : PantaClient) (sync_filter : json) :
  get_access_token request <> "" ->
  dict_get (client_sessions (self w)) (get_access_token request) = Some client ->
  decode_sync_filter env (md_get (query request) "filter") = Ok sync_filter ->
  exists outcome w' rest,
    sync env request w = (outcome, w')
    /\ log w' = (log w
                 ++ ClientSync client (md_get (query request) "timeout") sync_filter
                    :: rest)%list.
Proof.
  intros Ht Hc Hd. unfold sync. apply truthy_str_true in Ht. rewrite Ht. cbn [negb].
  change (bind get_self ?k w) with (k (self w) w). cbn beta. rewrite Hc.
  unfold bind at 1. unfold lift. rewrite Hd.
  match goal with
  | |- context [bind (client_sync_call env client ?t ?f) ?K] =>
      assert (HK : forall r, quiet (fun _ => True) (K r))
        by (quiet_with ltac:(exact I));
      destruct (HK (client_sync env (log w) client t f)
                   (emit (ClientSync client t f) w)) as [_ [delta [Hlog _]]];
      exists (fst (K (client_sync env (log w) client t f)
                     (emit (ClientSync client t f) w))),
             (snd (K (client_sync env (log w) client t f)
                     (emit (ClientSync client t f) w))),
             delta
  end.
  split.
  - unfold bind at 1. unfold client_sync_call. now rewrite <- surjective_pairing.
  - rewrite Hlog. cbn. now rewrite <- app_assoc.
Qed.

(** When decoding the filter raises, [sync] raises the same and has called
    nothing. *)
Lemma sync_raises_on_filter (request : Request) (w : World)
    (client : PantaClient) (e : exn) :
  get_access_token request <> "" ->
  dict_get (client_sessions (self w)) (get_access_token request) = Some client ->
  decode_sync_filter env (md_get (query request) "filter") = Raise e ->
  sync env request w = (Raise e, w).
Proof.
  intros Ht Hc Hd. unfold sync. apply truthy_str_true in Ht. rewrite Ht. cbn [negb].
  change (bind get_self ?k w) with (k (self w) w). cbn beta. rewrite Hc.
  unfold bind at 1. unfold lift. now rewrite Hd.
Qed.

(** C6, as the code has it. [sync], once the token checks have passed,
    first calls [client.sync] with the [timeout] of the query and a filter
    that is: absent when the query has no [filter]; absent when [filter]
    decodes to an integer, a boolean or null; the string itself, as it
    came, when decoding fails with [JSONDecodeError]; the decoded value (a
    string, a list, a float, an object) in every other case where it
    decodes. When the decoder raises another exception, the handler raises
    it and calls nothing. *)
Theorem C6_filter_handed_to_sync (request : Request) (w : World)
    (client : PantaClient) :
  get_access_token request <> "" ->
  dict_get (client_sessions (self w)) (get_access_token request) = Some client ->
  let handed sync_filter :=
    exists outcome w' rest,
      sync env request w = (outcome, w')
      /\ log w' = (log w
                   ++ ClientSync client (md_get (query request) "timeout") sync_filter
                      :: rest)%list in
  match md_get (query request) "filter" with
  | None => handed JNull
  | Some f =>
      match json_loads env f with
      | Raise JSONDecodeError => handed (JStr f)
      | Raise e => sync env request w = (Raise e, w)
      | Ok (JInt _) | Ok (JBool _) | Ok JNull => handed JNull
      | Ok j => handed j
      end
  end.
Proof.
  intros Ht Hc. cbv zeta.
  pose proof (sync_calls_client_sync request w client) as Hcall.
  pose proof (sync_raises_on_filter request w client) as Hraise.
  unfold decode_sync_filter in Hcall, Hraise.
  destruct (md_get (query request) "filter") as [f |].
  - destruct (json_loads env f) as [[] | []];
      first [ now apply Hcall | now apply Hraise ].
  - now apply Hcall.
Qed.
End SyncFilter.

Lemma C6_witness :
  exists outcome w' rest,
    sync Demo.env (Demo.sync_request "abc" (Some "42")) Demo.w1 = (outcome, w')
    /\ log w' = (log Demo.w1 ++ ClientSync Demo.alice None JNull :: rest)%list.
Proof.
  refine (C6_filter_handed_to_sync Demo.env (Demo.sync_request "abc" (Some "42"))
            Demo.w1 Demo.alice _ eq_refl).
  vm_compute. discriminate.
Defined.

(** C6 as stated fails: a [filter] that does not decode, and one that
    decodes to a list, are handed to [client.sync] (its call is the third
    entry of the log, after the two of the login) as the string and the list
    they are, while without [filter] the call has no filter. *)
Lemma C6_counterexample :
  JsonCore.loads "not-json" = None
  /\ nth_error (log (snd (sync Demo.env (Demo.sync_request "abc" (Some "not-json"))
                            Demo.w1))) 2
     = Some (ClientSync Demo.alice None (JStr "not-json"))
  /\ JsonCore.loads "[1]" = Some (JList [JInt 1])
  /\ nth_error (log (snd (sync Demo.env (Demo.sync_request "abc" (Some "[1]"))
                            Demo.w1))) 2
     = Some (ClientSync Demo.alice None (JList [JInt 1]))
  /\ nth_error (log (snd (sync Demo.env (Demo.sync_request "abc" None) Demo.w1))) 2
     = Some (ClientSync Demo.alice None JNull).
Proof. repeat split. Qed.

(** ** Login and the registry *)

Lemma dict_get_set_same {V} (d : dict V) (k : string) (v : V) :
  dict_get (dict_set d k v) k = Some v.
Proof.
  induction d as [| [k' v'] d IH]; cbn.
  - now rewrite String.eqb_refl.
  - destruct (String.eqb k' k) eqn:E; cbn; rewrite E; [reflexivity | exact IH].
Qed.

Lemma dict_get_set_other {V} (d : dict V) (k k' : string) (v : V) :
  k' <> k -> dict_get (dict_set d k v) k' = dict_get d k'.
Proof.
  intro Hne. induction d as [| [k0 v0] d IH]; cbn.
  - destruct (String.eqb_spec k k'); [congruence | reflexivity].
  - destruct (String.eqb_spec k0 k); cbn.
    + subst. destruct (String.eqb_spec k k'); [congruence | reflexivity].
    + destruct (String.eqb_spec k0 k'); [reflexivity | exact IH].
Qed.

Section Login.
Variable env : Environment.

(** A request whose credential is registered is sent through the session
    of its client, and that is all [router] does. *)
Lemma router_uses_registered_client (request : Request) (w : World)
    (client : PantaClient) :
  dict_get (client_sessions (self w)) (get_access_token request) = Some client ->
  exists o,
    snd (router env request w) = emit (SessionRequest (client_session client) o) w.
Proof.
  intro H. unfold router. run. rewrite H. cbn. eexists. reflexivity.
Qed.

(** A login whose body decodes to an object from which the user can be
    read constructs a client and makes the exchange. When the exchange
    answers with a [LoginResponse] carrying the token [t], the registry
    afterwards maps [t] to that client, nothing is closed, and the router
    sends any later request that carries a non-empty [t] as its
    [access_token] query parameter, and any request whose extracted
    credential is [t], through that client's session, constructing and
    using no other session. When the exchange answers anything else, the
    client is closed and the registry is as it was. The upstream status
    and text are relayed in both cases. *)
Theorem login_registers_token (request : Request) (w : World)
    (d : list (string * json)) (user : json) :
  json_loads env (body_text request) = Ok (JDict d) ->
  _get_login_user (JDict d) w = (Ok user, w) ->
  let field key default :=
    match dict_get d key with Some v => v | None => default end in
  let password := field "password" (JStr "") in
  let device_id := field "device_id" (JStr "") in
  let device_name := field "initial_device_display_name" (JStr "pantalaimon") in
  let client :=
    mkPantaClient (next_id w) (homeserver (self w)) user device_id
                  (data_dir (self w)) (ssl (self w)) (proxy (self w)) in
  let calls := [NewPantaClient client; ClientLogin client password device_name] in
  match client_login env (log w ++ [NewPantaClient client])%list client
                     password device_name with
  | LoginResponse t tr =>
      exists w',
        login env request w = (Ok (relay tr), w')
        /\ dict_get (client_sessions (self w')) t = Some client
        /\ log w' = (log w ++ calls)%list
        /\ (forall request',
              md_get (query request') "access_token" = Some t -> t <> "" ->
              exists o,
                snd (router env request' w')
                = emit (SessionRequest (client_session client) o) w')
        /\ (forall request',
              get_access_token request' = t ->
              exists o,
                snd (router env request' w')
                = emit (SessionRequest (client_session client) o) w')
  | LoginError tr =>
      login env request w
      = (Ok (relay tr),
         mkWorld (self w) (log w ++ calls ++ [ClientClose client])%list
                 (S (next_id w)))
  end.
Proof.
  intros Hbody Huser. cbv zeta.
  unfold login. rewrite Hbody.
  rewrite (bind_ok _ _ _ _ _ Huser).
  unfold bind, py_get, ret, get_self, new_PantaClient, client_login_call;
    cbn - [router].
  destruct (client_login env _ _ _ _) as [t tr | tr]; cbn - [router].
  - eexists. split; [reflexivity|]. cbn - [router].
    split; [apply dict_get_set_same|].
    split; [now rewrite <- app_assoc|].
    split.
    + intros request' Hq Hne. apply router_uses_registered_client. cbn.
      unfold get_access_token. rewrite Hq. cbn.
      apply truthy_str_true in Hne. rewrite Hne. cbn. apply dict_get_set_same.
    + intros request' Hreq. apply router_uses_registered_client. cbn.
      rewrite Hreq. apply dict_get_set_same.
  - unfold emit. cbn. rewrite <- !app_assoc. reflexivity.
Qed.
End Login.

Lemma login_registers_token_witness :
  exists w',
    login Demo.env (Demo.login_request "p") Demo.w0
    = (Ok (mkResponse 200 (Raw "welcome")), w')
    /\ dict_get (client_sessions (self w')) "abc" = Some Demo.alice
    /\ log w' = [NewPantaClient Demo.alice;
                 ClientLogin Demo.alice (JStr "p") (JStr "pantalaimon")]
    /\ exists o,
         snd (router Demo.env
                (mkRequest "GET" "/_matrix/client/r0/joined_rooms"
                           [("access_token", "abc")] [] "" [])
                w')
         = emit (SessionRequest (client_session Demo.alice) o) w'.
Proof.
  destruct (login_registers_token Demo.env (Demo.login_request "p") Demo.w0
              [("user", JStr "alice"); ("password", JStr "p")] (JStr "alice")
              eq_refl eq_refl) as [w' [Hlogin [Hget [Hlog [Hquery _]]]]].
  exists w'. repeat split; try assumption.
  apply Hquery; [reflexivity | discriminate].
Defined.

(** C5, evaluated: alice logs in and the homeserver answers with the token
    [abc], which the registry then maps to her client. The next request
    carries the token as [Authorization: Bearer abc]: the credential
    extracted from it is [bc], which is no key of the registry, and the
    router sends the request through a default session it constructs, not
    through the session of alice's client. *)
Lemma C5_header_token_misses_session :
  let request := Demo.versions_request [("Authorization", "Bearer abc")] in
  login Demo.env (Demo.login_request "p") Demo.w0
  = (Ok (mkResponse 200 (Raw "welcome")), Demo.w1)
  /\ dict_get (client_sessions (self Demo.w1)) "abc" = Some Demo.alice
  /\ get_access_token request = "bc"
  /\ dict_get (client_sessions (self Demo.w1)) "bc" = None
  /\ exists o,
       log (snd (router Demo.env request Demo.w1))
       = (log Demo.w1
          ++ [NewClientSession (AnonymousSession 1);
              SessionRequest (AnonymousSession 1) o])%list.
Proof. repeat split. eexists. reflexivity. Qed.

(** The exchange fails for another password: the client is closed, the
    registry stays empty, the upstream answer is relayed. *)
Example login_failure_closes_client :
  login Demo.env (Demo.login_request "wrong") Demo.w0
  = (Ok (mkResponse 403 (Raw "forbidden")),
     mkWorld (self Demo.w0)
             [NewPantaClient Demo.alice;
              ClientLogin Demo.alice (JStr "wrong") (JStr "pantalaimon");
              ClientClose Demo.alice] 1).
Proof. reflexivity. Qed.

(** The request of the specification: [access_token=abc] in the query goes
    through the session of alice's client; no [ClientSession] is made. *)
Example request_after_login_uses_client_session :
  exists o,
    log (snd (router Demo.env
                (mkRequest "GET" "/_matrix/client/r0/joined_rooms"
                           [("access_token", "abc")] [] "" [])
                Demo.w1))
    = (log Demo.w1 ++ [SessionRequest (SessionOf 0) o])%list.
Proof. eexists. reflexivity. Qed.

(** ** Shutdown *)

Lemma for_each_close (l : list PantaClient) (w : World) :
  for_each l (fun client => tell (ClientClose client)) w
  = (Ok tt, mkWorld (self w) (log w ++ map ClientClose l) (next_id w)).
Proof.
  revert w. induction l as [| c l IH]; intro w; cbn.
  - unfold ret. rewrite app_nil_r. now destruct w.
  - unfold bind, tell. rewrite IH. cbn. now rewrite <- app_assoc.
Qed.

(** One run of [shutdown]. *)
Lemma shutdown_run (w : World) :
  shutdown w
  = (Ok tt,
     mkWorld (mkProxyDaemon (homeserver (self w)) (data_dir (self w))
                (proxy (self w)) (ssl (self w)) (client_sessions (self w)) None)
             (log w ++ map ClientClose (dict_values (client_sessions (self w)))
              ++ match default_session (self w) with
                 | Some s => [SessionClose s]
                 | None => []
                 end)
             (next_id w)).
Proof.
  unfold shutdown.
  change (bind get_self ?k w) with (k (self w) w). cbn beta.
  unfold bind at 1. rewrite for_each_close.
  destruct w as [[hs dd px sl cs ds] lg n]; cbn.
  destruct ds as [s|]; cbn.
  - unfold set_default_session, emit. cbn. now rewrite <- app_assoc.
  - now rewrite app_nil_r.
Qed.

(** C9, as the code has it. [shutdown] closes every client of the registry,
    in the registry's order, then the default session if there is one, and
    forgets the default session; it does not raise and it leaves the
    registry as it was. Run a second time it leaves the daemon as the first
    run left it and does not close the default session again, but it closes
    every client of the registry once more. With an empty registry and no
    default session it changes nothing and calls nothing. *)
Theorem C9_shutdown_closes_sessions (w : World) :
  let d := self w in
  let closes := map ClientClose (dict_values (client_sessions d)) in
  let default_close :=
    match default_session d with Some s => [SessionClose s] | None => [] end in
  let w1 :=
    mkWorld (mkProxyDaemon (homeserver d) (data_dir d) (proxy d) (ssl d)
                           (client_sessions d) None)
            (log w ++ closes ++ default_close) (next_id w) in
  shutdown w = (Ok tt, w1)
  /\ shutdown w1 = (Ok tt, mkWorld (self w1) (log w1 ++ closes) (next_id w1))
  /\ (client_sessions d = [] -> default_session d = None -> shutdown w = (Ok tt, w)).
Proof.
  cbv zeta. split; [apply shutdown_run | split].
  - rewrite shutdown_run. cbn. now rewrite app_nil_r.
  - intros Hcs Hds. rewrite shutdown_run, Hcs, Hds. cbn. rewrite app_nil_r.
    destruct w as [[hs dd px sl cs ds] lg n]; cbn in *. now subst.
Qed.

Lemma C9_witness : shutdown Demo.w0 = (Ok tt, Demo.w0).
Proof.
  exact (proj2 (proj2 (C9_shutdown_closes_sessions Demo.w0)) eq_refl eq_refl).
Defined.

(** C9 as stated fails: with alice in the registry, the second [shutdown]
    closes her client a second time. *)
Lemma C9_counterexample :
  dict_values (client_sessions (self Demo.w1)) = [Demo.alice]
  /\ log (snd (shutdown Demo.w1)) = (log Demo.w1 ++ [ClientClose Demo.alice])%list
  /\ log (snd (shutdown (snd (shutdown Demo.w1))))
     = (log Demo.w1 ++ [ClientClose Demo.alice; ClientClose Demo.alice])%list.
Proof. repeat split. Qed.

(** ** The default session of the router *)

Lemma anonymous_events_app (l1 l2 : list event) :
  anonymous_events (l1 ++ l2) = (anonymous_events l1 ++ anonymous_events l2)%list.
Proof. apply filter_app. Qed.

Lemma anonymous_events_none (l : list event) :
  Forall (fun e => is_anonymous e = false) l -> anonymous_events l = [].
Proof.
  induction 1 as [| e l He _ IH]; cbn; [reflexivity|]. now rewrite He.
Qed.

Lemma constructions_of_anonymous (l : list event) :
  filter is_construction (anonymous_events l) = filter is_construction l.
Proof.
  unfold anonymous_events.
  induction l as [| e l IH]; cbn [filter]; [reflexivity|].
  destruct (is_anonymous e) eqn:Ha; cbn [filter]; rewrite IH; [reflexivity|].
  destruct e as [| | s ? | | | | | | | | | | |]; try destruct s; cbn in *;
    congruence.
Qed.

Lemma no_construction_in_requests (s : ClientSession) (l : list event) :
  Forall (request_through s) l -> filter is_construction l = [].
Proof.
  induction 1 as [| e l [o ->] _ IH]; cbn; [reflexivity | exact IH].
Qed.

Lemma no_construction_in_closes (l : list PantaClient) :
  filter is_construction (map ClientClose l) = [].
Proof. induction l as [| c l IH]; cbn; [reflexivity | exact IH]. Qed.

Section DefaultSession.
Variable env : Environment.

Let calm := fun e : event => is_anonymous e = false.

Lemma login_quiet (request : Request) : quiet calm (login env request).
Proof. unfold login. quiet_with ltac:(reflexivity). Qed.

Lemma sync_quiet (request : Request) : quiet calm (sync env request).
Proof. unfold sync. quiet_with ltac:(reflexivity). Qed.

Lemma send_message_quiet (request : Request) : quiet calm (send_message env request).
Proof. unfold send_message. quiet_with ltac:(reflexivity). Qed.

Lemma quiet_keeps_anonymous_state {A} (m : M A) (w : World) :
  quiet calm m -> anonymous_state w -> anonymous_state (snd (m w)).
Proof.
  intros Hq Hw. destruct (Hq w) as [Hd [delta [Hl Hc]]].
  assert (He : anonymous_events (log (snd (m w))) = anonymous_events (log w)).
  { rewrite Hl, anonymous_events_app, (anonymous_events_none _ Hc). apply app_nil_r. }
  destruct Hw as [Hnone Hev | id o rest Hsome Hev Hall].
  - apply anonymous_unused; congruence.
  - apply (@anonymous_in_use _ id o rest); congruence.
Qed.

(** What one run of [router] does: one request, through the session of the
    client the credential is registered for, or else through the default
    session, which is constructed first when there is none yet. *)
Lemma router_resolves_once (request : Request) (w : World) :
  exists session o,
    let w' := snd (router env request w) in
    match dict_get (client_sessions (self w)) (get_access_token request) with
    | Some client =>
        session = client_session client
        /\ log w' = (log w ++ [SessionRequest session o])%list
        /\ default_session (self w') = default_session (self w)
    | None =>
        match default_session (self w) with
        | Some s =>
            session = s
            /\ log w' = (log w ++ [SessionRequest session o])%list
            /\ default_session (self w') = Some s
        | None =>
            session = AnonymousSession (next_id w)
            /\ log w' = (log w ++ [NewClientSession session;
                                   SessionRequest session o])%list
            /\ default_session (self w') = Some session
        end
    end.
Proof.
  unfold router. run.
  destruct (dict_get (client_sessions (self w)) (get_access_token request)) as [c|].
  - do 2 eexists. repeat split.
  - destruct (default_session (self w)) as [s|] eqn:Hs.
    + do 2 eexists. repeat split. exact Hs.
    + do 2 eexists. repeat split. cbn. now rewrite <- app_assoc.
Qed.

Lemma router_keeps_anonymous_state (request : Request) (w : World) :
  anonymous_state w -> anonymous_state (snd (router env request w)).
Proof.
  intro Hw. destruct (router_resolves_once request w) as [session [o H]].
  cbv zeta in H.
  destruct (dict_get (client_sessions (self w)) (get_access_token request)) as [c|].
  - destruct H as [-> [Hl Hd]].
    assert (He : anonymous_events (log (snd (router env request w)))
                 = anonymous_events (log w)).
    { rewrite Hl, anonymous_events_app. cbn. apply app_nil_r. }
    destruct Hw as [Hnone Hev | id o' rest Hsome Hev Hall].
    + apply anonymous_unused; congruence.
    + apply (@anonymous_in_use _ id o' rest); congruence.
  - destruct Hw as [Hnone Hev | id o' rest Hsome Hev Hall].
    + rewrite Hnone in H. destruct H as [-> [Hl Hd]].
      apply (@anonymous_in_use _ (next_id w) o []); [exact Hd | | constructor].
      rewrite Hl, anonymous_events_app, Hev. reflexivity.
    + rewrite Hsome in H. destruct H as [-> [Hl Hd]].
      apply (@anonymous_in_use _ id o' (rest ++ [SessionRequest (AnonymousSession id) o]));
        [exact Hd | |].
      * rewrite Hl, anonymous_events_app, Hev. reflexivity.
      * apply Forall_app. split; [exact Hall|].
        constructor; [now exists o | constructor].
Qed.

Lemma serve_keeps_anonymous_state (requests : list (route * Request)) (w : World) :
  anonymous_state w -> anonymous_state (serve env requests w).
Proof.
  revert w. induction requests as [| [r request] requests IH]; intros w Hw; cbn.
  - exact Hw.
  - apply IH. destruct r; cbn.
    + apply quiet_keeps_anonymous_state; [apply login_quiet | exact Hw].
    + apply quiet_keeps_anonymous_state; [apply sync_quiet | exact Hw].
    + apply quiet_keeps_anonymous_state; [apply send_message_quiet | exact Hw].
    + apply router_keeps_anonymous_state, Hw.
Qed.

(** C7. Take any sequence of requests served since [init].
    - [ClientSession()] has been called at most once, and that is still so
      when [shutdown] has run at the end.
    - Either no anonymous session was made or used and the daemon holds
      none; or the daemon holds the one that was made, the first event
      that concerns an anonymous session is its construction, the next is
      a request through it, and every later anonymous request went
      through that same session.
    - A request that reaches [router] is sent once, through one session:
      the session of the client its credential is registered for when
      there is one; otherwise the default session, constructed at that
      moment only if the daemon holds none. *)
Theorem C7_one_default_session (homeserver data_dir : string)
    (http_proxy : option string) (ssl : ssl_opt)
    (requests : list (route * Request)) :
  let w := serve env requests (init homeserver data_dir http_proxy ssl) in
  length (filter is_construction (log w)) <= 1
  /\ length (filter is_construction
               (log (lifecycle env homeserver data_dir http_proxy ssl requests))) <= 1
  /\ ((default_session (self w) = None /\ anonymous_events (log w) = [])
      \/ exists id o rest,
           default_session (self w) = Some (AnonymousSession id)
           /\ anonymous_events (log w)
              = NewClientSession (AnonymousSession id)
                :: SessionRequest (AnonymousSession id) o :: rest
           /\ Forall (request_through (AnonymousSession id)) rest)
  /\ forall request,
       exists session o,
         let w' := snd (router env request w) in
         match dict_get (client_sessions (self w)) (get_access_token request) with
         | Some client =>
             session = client_session client
             /\ log w' = (log w ++ [SessionRequest session o])%list
             /\ default_session (self w') = default_session (self w)
         | None =>
             match default_session (self w) with
             | Some s =>
                 session = s
                 /\ log w' = (log w ++ [SessionRequest session o])%list
                 /\ default_session (self w') = Some s
             | None =>
                 session = AnonymousSession (next_id w)
                 /\ log w' = (log w ++ [NewClientSession session;
                                        SessionRequest session o])%list
                 /\ default_session (self w') = Some session
             end
         end.
Proof.
  cbv zeta.
  assert (Hw : anonymous_state
                 (serve env requests (init homeserver data_dir http_proxy ssl))).
  { apply serve_keeps_anonymous_state. now apply anonymous_unused. }
  assert (Hc : length (filter is_construction
                         (log (serve env requests
                                 (init homeserver data_dir http_proxy ssl)))) <= 1).
  { rewrite <- constructions_of_anonymous.
    destruct Hw as [_ Hev | id o rest _ Hev Hall]; rewrite Hev; cbn.
    - lia.
    - rewrite (no_construction_in_requests _ _ Hall). cbn. lia. }
  split; [exact Hc | split; [| split]].
  - unfold lifecycle. rewrite shutdown_run. cbn [snd log].
    rewrite !filter_app, no_construction_in_closes.
    destruct (default_session _); cbn; rewrite app_nil_r; exact Hc.
  - destruct Hw as [Hnone Hev | id o rest Hsome Hev Hall].
    + now left.
    + right. now exists id, o, rest.
  - intro request. apply router_resolves_once.
Qed.
End DefaultSession.

(** Two requests without a token, after alice's login: one construction,
    both requests through the session it made. *)
Example two_anonymous_requests :
  let request := Demo.versions_request [("Host", "localhost:8009")] in
  exists o,
    log (serve Demo.env [(RRouter, request); (RRouter, request)] Demo.w1)
    = (log Demo.w1
       ++ [NewClientSession (AnonymousSession 1);
           SessionRequest (AnonymousSession 1) o;
           SessionRequest (AnonymousSession 1) o])%list.
Proof. eexists. reflexivity. Qed.

(** * Further properties of the handlers *)

(** ** A relation every step keeps

    [R] is kept by a handler when it is reflexive and transitive, and kept
    by each primitive the handler is made of. [Q] says which events may be
    logged. *)

Section Frame.
Variable R : World -> World -> Prop.
Variable Q : event -> Prop.
Hypothesis R_refl : forall w, R w w.
Hypothesis R_trans : forall w1 w2 w3, R w1 w2 -> R w2 w3 -> R w1 w3.
Hypothesis R_emit : forall e w, Q e -> R w (emit e w).
Hypothesis R_bump : forall w, R w (bump w).

Lemma steps_ret {A} (a : A) : steps R (ret a).
Proof. intro w. apply R_refl. Qed.

Lemma steps_raise {A} (e : exn) : steps R (@raise A e).
Proof. intro w. apply R_refl. Qed.

Lemma steps_get_self : steps R get_self.
Proof. intro w. apply R_refl. Qed.

Lemma steps_bind {A B} (m : M A) (k : A -> M B) :
  steps R m -> (forall a, steps R (k a)) -> steps R (bind m k).
Proof.
  intros Hm Hk w. unfold bind. specialize (Hm w).
  destruct (m w) as [[a | e] w1]; cbn in *.
  - apply (R_trans _ _ _ Hm). apply Hk.
  - exact Hm.
Qed.

Lemma steps_try_except {A} (m : M A) (handler : exn -> M A) :
  steps R m -> (forall e, steps R (handler e)) -> steps R (try_except m handler).
Proof.
  intros Hm Hh w. unfold try_except. specialize (Hm w).
  destruct (m w) as [[a | e] w1]; cbn in *.
  - exact Hm.
  - apply (R_trans _ _ _ Hm). apply Hh.
Qed.

Lemma steps_tell (e : event) : Q e -> steps R (tell e).
Proof. intros He w. now apply R_emit. Qed.

Lemma steps_call {A} (answer : World -> result A) (e : event) :
  Q e -> steps R (fun w => (answer w, emit e w)).
Proof. intros He w. now apply R_emit. Qed.

Lemma steps_read {A} (answer : World -> result A) : steps R (fun w => (answer w, w)).
Proof. intro w. apply R_refl. Qed.

Lemma steps_for_each {A} (l : list A) (body : A -> M unit) :
  (forall x, steps R (body x)) -> steps R (for_each l body).
Proof.
  intro Hb. induction l as [| x l IH]; cbn.
  - apply steps_ret.
  - apply steps_bind; [apply Hb | intros _; exact IH].
Qed.

Lemma steps_new_PantaClient hs user device_id store ssl_ proxy_ :
  (forall c, Q (NewPantaClient c)) ->
  steps R (new_PantaClient hs user device_id store ssl_ proxy_).
Proof.
  intros H w. apply (R_trans _ (bump w)); [apply R_bump|].
  apply (R_emit (NewPantaClient _) (bump w)), H.
Qed.

Lemma steps_new_ClientSession :
  (forall s, Q (NewClientSession s)) -> steps R new_ClientSession.
Proof.
  intros H w. apply (R_trans _ (bump w)); [apply R_bump|].
  apply (R_emit (NewClientSession _) (bump w)), H.
Qed.

Lemma steps_py_get (x : json) (key : string) (default : json) :
  steps R (py_get x key default).
Proof. destruct x; cbn; (apply steps_ret || apply steps_raise). Qed.

Lemma steps_match_info_get (request : Request) (key : string) :
  steps R (match_info_get request key).
Proof.
  unfold match_info_get.
  destruct (md_get (match_info request) key); (apply steps_ret || apply steps_raise).
Qed.
End Frame.

(** Takes a handler apart along its binds and branches. [side] proves [Q]
    of each event the handler emits; the writes to the daemon are left. *)
Ltac steps_with Hrefl Htrans Hemit Hbump side :=
  repeat
    match goal with
    | |- forall _, _ => intro
    | |- steps _ (bind _ _) => apply (steps_bind _ Htrans)
    | |- steps _ (try_except _ _) => apply (steps_try_except _ Htrans)
    | |- steps _ (ret _) => apply (steps_ret _ Hrefl)
    | |- steps _ (raise _) => apply (steps_raise _ Hrefl)
    | |- steps _ get_self => apply (steps_get_self _ Hrefl)
    | |- steps _ (tell _) => apply (steps_tell _ _ Hemit); side
    | |- steps _ (for_each _ _) => apply (steps_for_each _ Hrefl Htrans)
    | |- steps _ (py_get _ _ _) => apply (steps_py_get _ Hrefl)
    | |- steps _ (match_info_get _ _) => apply (steps_match_info_get _ Hrefl)
    | |- steps _ (new_PantaClient _ _ _ _ _ _) =>
        apply (steps_new_PantaClient _ _ Htrans Hemit Hbump); intro; side
    | |- steps _ (new_ClientSession) =>
        apply (steps_new_ClientSession _ _ Htrans Hemit Hbump); intro; side
    | |- steps _ (session_request_call _ _ _) => apply (steps_call _ _ Hemit); side
    | |- steps _ (client_login_call _ _ _ _) => apply (steps_call _ _ Hemit); side
    | |- steps _ (client_sync_call _ _ _ _) => apply (steps_call _ _ Hemit); side
    | |- steps _ (keys_query_call _ _) => apply (steps_call _ _ Hemit); side
    | |- steps _ (decrypt_sync_body_call _ _ _) => apply (steps_call _ _ Hemit); side
    | |- steps _ (room_send_call _ _ _ _ _ _) => apply (steps_call _ _ Hemit); side
    | |- steps _ (read_should_upload_keys _ _) => apply (steps_read _ Hrefl)
    | |- steps _ (read_should_query_keys _ _) => apply (steps_read _ Hrefl)
    | |- steps _ (forward_request _ _ _) => unfold forward_request
    | |- steps _ (transport_json _ _) => unfold transport_json
    | |- steps _ (lift _) => apply (steps_read _ Hrefl)
    | |- steps _ (verify_devices _ _) => unfold verify_devices
    | |- steps _ (_get_login_user _) => unfold _get_login_user
    | |- steps _ (match ?x with _ => _ end) => destruct x
    end.

(** ** What the handlers leave alone *)

Section LeftAlone.
Variable env : Environment.

(** [sync] and [send_message] read the daemon and never write it: whatever
    the request and whatever the client answers, and whether they return
    or raise, the registry, the default session and the settings are
    afterwards what they were. *)
Theorem sync_and_send_keep_daemon (request : Request) (w : World) :
  self (snd (sync env request w)) = self w
  /\ self (snd (send_message env request w)) = self w.
Proof.
  assert (Hrefl : forall w0, same_self w0 w0) by reflexivity.
  assert (Htrans : forall w1 w2 w3, same_self w1 w2 -> same_self w2 w3 -> same_self w1 w3)
    by (unfold same_self; congruence).
  assert (Hemit : forall e w0, True -> same_self w0 (emit e w0)) by reflexivity.
  assert (Hbump : forall w0, same_self w0 (bump w0)) by reflexivity.
  split.
  - assert (H : steps same_self (sync env request))
      by (unfold sync; steps_with Hrefl Htrans Hemit Hbump ltac:(exact I)).
    apply H.
  - assert (H : steps same_self (send_message env request))
      by (unfold send_message; steps_with Hrefl Htrans Hemit Hbump ltac:(exact I)).
    apply H.
Qed.

(** [router] never writes the registry or the settings; the only field it
    may write is [default_session]. *)
Theorem router_keeps_registry (request : Request) (w : World) :
  client_sessions (self (snd (router env request w))) = client_sessions (self w)
  /\ config (self (snd (router env request w))) = config (self w).
Proof.
  assert (Hrefl : forall w0, same_registry w0 w0) by (split; reflexivity).
  assert (Htrans : forall w1 w2 w3,
             same_registry w1 w2 -> same_registry w2 w3 -> same_registry w1 w3)
    by (unfold same_registry; intros ? ? ? [? ?] [? ?]; split; congruence).
  assert (Hemit : forall e w0, True -> same_registry w0 (emit e w0))
    by (split; reflexivity).
  assert (Hbump : forall w0, same_registry w0 (bump w0)) by (split; reflexivity).
  assert (H : steps same_registry (router env request)).
  { unfold router. steps_with Hrefl Htrans Hemit Hbump ltac:(exact I).
    intro w0. split; reflexivity. }
  apply H.
Qed.
End LeftAlone.

(** ** The registry *)

Lemma dict_set_keys_in {V} (d : dict V) (k x : string) (v : V) :
  In x (map fst (dict_set d k v)) -> x = k \/ In x (map fst d).
Proof.
  induction d as [| [k0 v0] d IH]; cbn.
  - intros [H | []]. now left.
  - destruct (String.eqb k0 k); cbn.
    + intros [H | H]; right; [now left | now right].
    + intros [H | H]; [right; now left|].
      destruct (IH H) as [Hk | Hin]; [now left | right; now right].
Qed.

Lemma dict_set_keys_nodup {V} (d : dict V) (k : string) (v : V) :
  NoDup (map fst d) -> NoDup (map fst (dict_set d k v)).
Proof.
  induction d as [| [k0 v0] d IH]; cbn; intro Hnd.
  - constructor; [intros [] | constructor].
  - inversion Hnd as [| ? ? Hnotin Hnd']; subst.
    destruct (String.eqb_spec k0 k); cbn.
    + now constructor.
    + constructor; [| now apply IH].
      intro Hin. destruct (dict_set_keys_in _ _ _ _ Hin); [congruence | contradiction].
Qed.

Lemma dict_set_keeps_keys {V} (d : dict V) (k t : string) (v : V) :
  dict_get d t <> None -> dict_get (dict_set d k v) t <> None.
Proof.
  intro H. destruct (String.eqb_spec t k) as [-> | Hne].
  - rewrite dict_get_set_same. discriminate.
  - now rewrite dict_get_set_other.
Qed.

(** [d[k] = v] on a key that is there keeps the size; on a new key it adds
    one entry. *)
Lemma dict_set_length {V} (d : dict V) (k : string) (v : V) :
  length (dict_set d k v)
  = match dict_get d k with Some _ => length d | None => S (length d) end.
Proof.
  induction d as [| [k0 v0] d IH]; cbn; [reflexivity|].
  destruct (String.eqb k0 k); cbn; [reflexivity|].
  rewrite IH. now destruct (dict_get d k).
Qed.

Section Registry.
Variable env : Environment.

Lemma registry_grows_refl (w : World) : registry_grows w w.
Proof. repeat split; auto. Qed.

Lemma registry_grows_trans (w1 w2 w3 : World) :
  registry_grows w1 w2 -> registry_grows w2 w3 -> registry_grows w1 w3.
Proof.
  intros [Hc1 [Hn1 Hr1]] [Hc2 [Hn2 Hr2]]. repeat split; [congruence | auto | auto].
Qed.

Lemma dispatch_registry_grows (r : route) (request : Request) :
  steps registry_grows (dispatch env r request).
Proof.
  assert (Hemit : forall e w0, True -> registry_grows w0 (emit e w0))
    by (intros; repeat split; auto).
  assert (Hbump : forall w0, registry_grows w0 (bump w0))
    by (intros; repeat split; auto).
  destruct r; cbn.
  - unfold login.
    steps_with registry_grows_refl registry_grows_trans Hemit Hbump ltac:(exact I).
    intro w0. unfold registry_grows, tokens, registered. cbn. repeat split.
    + apply dict_set_keys_nodup.
    + intros t. apply dict_set_keeps_keys.
  - unfold sync.
    steps_with registry_grows_refl registry_grows_trans Hemit Hbump ltac:(exact I).
  - unfold send_message.
    steps_with registry_grows_refl registry_grows_trans Hemit Hbump ltac:(exact I).
  - unfold router.
    steps_with registry_grows_refl registry_grows_trans Hemit Hbump ltac:(exact I).
    intro w0. repeat split; auto.
Qed.

(** While requests are served, whatever they are and in whatever order:
    the settings of the daemon never change, the tokens of the registry
    stay pairwise distinct, and a token that is registered stays registered
    (nothing ever removes an entry; a later login may replace its client). *)
Theorem serve_keeps_registry (requests : list (route * Request)) (w : World) :
  config (self (serve env requests w)) = config (self w)
  /\ (NoDup (tokens w) -> NoDup (tokens (serve env requests w)))
  /\ forall token, registered w token -> registered (serve env requests w) token.
Proof.
  change (registry_grows w (serve env requests w)).
  revert w. induction requests as [| [r request] requests IH]; intro w; cbn.
  - apply registry_grows_refl.
  - eapply registry_grows_trans; [apply dispatch_registry_grows | apply IH].
Qed.
End Registry.

Lemma serve_keeps_registry_witness :
  let w := serve Demo.env
             [(RLogin, Demo.login_request "p");
              (RRouter, Demo.versions_request []);
              (RLogin, Demo.login_request "wrong")] Demo.w1 in
  NoDup (tokens w) /\ registered w "abc".
Proof.
  split.
  - apply (proj1 (proj2 (serve_keeps_registry Demo.env _ Demo.w1))).
    repeat constructor. intros [].
  - apply (proj2 (proj2 (serve_keeps_registry Demo.env _ Demo.w1))).
    vm_compute. discriminate.
Defined.

(** ** Login *)

Section LoginEffect.
Variable env : Environment.

(** Reading the user touches nothing. *)
Lemma get_login_user_pure (body : json) (w : World) :
  exists r, _get_login_user body w = (r, w).
Proof.
  unfold _get_login_user.
  destruct body as [| | | | | | d]; try (eexists; reflexivity).
  unfold bind, py_get, ret, raise; cbn.
  destruct (dict_get d "identifier") as [identifier |]; cbn;
    [| eexists; reflexivity].
  destruct (py_truthy identifier); [| eexists; reflexivity].
  destruct identifier as [| | | | | | i]; try (eexists; reflexivity).
  destruct (dict_get i "user") as [user |]; cbn; [| eexists; reflexivity].
  destruct (py_truthy user); eexists; reflexivity.
Qed.

(** It raises nothing but [AttributeError]. *)
Lemma get_login_user_raises (body : json) (w w' : World) (e : exn) :
  _get_login_user body w = (Raise e, w') -> e = AttributeError.
Proof.
  unfold _get_login_user.
  destruct body as [| | | | | | d]; try (cbn; congruence).
  unfold bind, py_get, ret, raise; cbn.
  destruct (dict_get d "identifier") as [identifier |]; cbn;
    [| destruct (dict_get d "user"); congruence].
  destruct (py_truthy identifier); [| destruct (dict_get d "user"); congruence].
  destruct identifier as [| | | | | | i]; try congruence.
  destruct (dict_get i "user") as [user |]; cbn;
    [| destruct (dict_get d "user"); congruence].
  destruct (py_truthy user); cbn; [| destruct (dict_get d "user")]; congruence.
Qed.

(** One run of [login], whatever the request. *)
Lemma login_run (request : Request) (w : World) :
  snd (login env request w) = w
  \/ exists user device_id password device_name,
       let client :=
         mkPantaClient (next_id w) (homeserver (self w)) user device_id
                       (data_dir (self w)) (ssl (self w)) (proxy (self w)) in
       let answer :=
         client_login env (log w ++ [NewPantaClient client])%list client
                      password device_name in
       let calls := [NewPantaClient client; ClientLogin client password device_name] in
       login env request w
       = (Ok (relay (login_transport answer)),
          match answer with
          | LoginResponse t _ =>
              mkWorld (with_client_sessions (self w)
                         (dict_set (client_sessions (self w)) t client))
                      (log w ++ calls) (S (next_id w))
          | LoginError _ =>
              mkWorld (self w) (log w ++ calls ++ [ClientClose client]) (S (next_id w))
          end).
Proof.
  unfold login.
  destruct (json_loads env (body_text request)) as [body | []];
    try (left; reflexivity).
  destruct (get_login_user_pure body w) as [[user | e] Hu].
  - rewrite (bind_ok _ _ _ _ _ Hu).
    destruct body as [| | | | | | d];
      try (exfalso; revert Hu; unfold _get_login_user, py_get, bind, raise; cbn;
           discriminate).
    right.
    exists user,
      (match dict_get d "device_id" with Some v => v | None => JStr "" end),
      (match dict_get d "password" with Some v => v | None => JStr "" end),
      (match dict_get d "initial_device_display_name" with
       | Some v => v | None => JStr "pantalaimon" end).
    cbv zeta.
    unfold bind, py_get, ret, get_self, new_PantaClient, client_login_call; cbn.
    destruct (client_login env _ _ _ _) as [t tr | tr]; cbn.
    + unfold set_client_session, emit, with_client_sessions. cbn.
      now rewrite <- app_assoc.
    + unfold tell, emit. cbn. now rewrite <- !app_assoc.
  - left. unfold bind. now rewrite Hu.
Qed.
End LoginEffect.

Section LoginProperties.
Variable env : Environment.

(** The user of a login body that is an object, by precedence: the [user]
    of [identifier] when [identifier] is an object and that [user] is a
    true value; otherwise the top-level [user], or the empty string when
    there is none. This holds when [identifier] is missing or is a false
    value (null, an empty object, ...), and when it is an object whose
    [user] is missing or is a false value. An [identifier] that is a true
    value but no object (a string, a number, a list) raises
    [AttributeError]. Nothing else is touched. *)
Theorem get_login_user_precedence (d : list (string * json)) (w : World) :
  let top := match dict_get d "user" with Some v => v | None => JStr "" end in
  (forall i u,
      dict_get d "identifier" = Some (JDict i) ->
      dict_get i "user" = Some u -> py_truthy u = true ->
      _get_login_user (JDict d) w = (Ok u, w))
  /\ (forall i,
        dict_get d "identifier" = Some (JDict i) ->
        (dict_get i "user" = None
         \/ exists u, dict_get i "user" = Some u /\ py_truthy u = false) ->
        _get_login_user (JDict d) w = (Ok top, w))
  /\ ((dict_get d "identifier" = None
       \/ exists identifier,
            dict_get d "identifier" = Some identifier /\ py_truthy identifier = false) ->
      _get_login_user (JDict d) w = (Ok top, w))
  /\ (forall identifier,
        dict_get d "identifier" = Some identifier ->
        py_truthy identifier = true ->
        (forall i, identifier <> JDict i) ->
        _get_login_user (JDict d) w = (Raise AttributeError, w)).
Proof.
  cbv zeta. unfold _get_login_user, bind, py_get, ret, raise. cbn.
  split; [| split; [| split]].
  - intros i u Hi Hu Ht. rewrite Hi. cbn.
    destruct i as [| p i']; [discriminate|]. cbn - [dict_get].
    rewrite Hu. cbn. now rewrite Ht.
  - intros i Hi Hu. rewrite Hi. cbn.
    destruct i as [| p i']; [reflexivity|]. cbn - [dict_get].
    destruct Hu as [Hu | [u [Hu Ht]]]; rewrite Hu; cbn; [| rewrite Ht]; reflexivity.
  - intros [Hi | [identifier [Hi Ht]]]; rewrite Hi; cbn; [| rewrite Ht]; reflexivity.
  - intros identifier Hi Ht Hno. rewrite Hi. cbn. rewrite Ht.
    destruct identifier as [| | | | | | i]; try reflexivity.
    now destruct (Hno i).
Qed.

(** A login whose body is not JSON is answered 500 M_NOT_JSON, and a login
    whose body is JSON but not an object raises [AttributeError]; in both
    cases no client is constructed, nothing is called and the daemon is
    left as it was. *)
Theorem login_rejects_without_client (request : Request) (w : World) :
  (json_loads env (body_text request) = Raise JSONDecodeError ->
   login env request w = (Ok login_not_json, w))
  /\ (forall body,
        json_loads env (body_text request) = Ok body ->
        (forall d, body <> JDict d) ->
        login env request w = (Raise AttributeError, w))
  /\ login_not_json
     = mkResponse 500 (Dumps (JDict [("errcode", JStr "M_NOT_JSON");
                                     ("error", JStr "Request did not contain valid JSON.")])).
Proof.
  split; [| split; [| reflexivity]].
  - intro H. unfold login. now rewrite H.
  - intros body H Hno. unfold login. rewrite H.
    destruct body as [| | | | | | d]; try reflexivity.
    now destruct (Hno d).
Qed.

(** Whatever the request, [login] either calls nothing, or constructs one
    client, with the next identity and with the homeserver, the data
    directory, the ssl setting and the proxy of the daemon, makes one
    exchange with it, and closes it or not; it makes no other call. *)
Theorem login_calls (request : Request) (w : World) :
  exists delta,
    log (snd (login env request w)) = (log w ++ delta)%list
    /\ (delta = []
        \/ exists c password device_name,
             (client_id c = next_id w
              /\ c_homeserver c = homeserver (self w)
              /\ c_store_path c = data_dir (self w)
              /\ c_ssl c = ssl (self w)
              /\ c_proxy c = proxy (self w))
             /\ (delta = [NewPantaClient c; ClientLogin c password device_name]
                 \/ delta = [NewPantaClient c; ClientLogin c password device_name;
                             ClientClose c])).
Proof.
  destruct (login_run env request w)
    as [Hw | [user [device_id [password [device_name H]]]]].
  - exists []. rewrite Hw, app_nil_r. split; [reflexivity | now left].
  - cbv zeta in H. rewrite H. cbn [snd].
    destruct (client_login env _ _ _ _); cbn [log];
      (eexists; split; [reflexivity|]; right; do 3 eexists;
       split; cycle 1;
       [first [left; reflexivity | right; reflexivity] | repeat split]).
Qed.

(** [login] writes at most one entry of the registry and nothing else of
    the daemon: either the daemon is as it was, or one token [t] now maps
    to the client just constructed, every other token resolves as before,
    and the registry has one entry more when [t] was not registered and as
    many as before when it was (the earlier client is replaced, there is no
    collision error). *)
Theorem login_writes_one_entry (request : Request) (w : World) :
  let d := self w in
  let d' := self (snd (login env request w)) in
  d' = d
  \/ exists t c,
       d' = with_client_sessions d (dict_set (client_sessions d) t c)
       /\ client_id c = next_id w
       /\ dict_get (client_sessions d') t = Some c
       /\ (forall t', t' <> t ->
             dict_get (client_sessions d') t' = dict_get (client_sessions d) t')
       /\ length (client_sessions d')
          = match dict_get (client_sessions d) t with
            | Some _ => length (client_sessions d)
            | None => S (length (client_sessions d))
            end.
Proof.
  cbv zeta.
  destruct (login_run env request w)
    as [Hw | [user [device_id [password [device_name H]]]]].
  - left. now rewrite Hw.
  - cbv zeta in H. rewrite H. cbn [snd].
    destruct (client_login env _ _ _ _) as [t tr | tr]; cbn [self].
    + right. do 2 eexists. split; [reflexivity|]. cbn.
      split; [reflexivity|]. split; [apply dict_get_set_same|].
      split; [intros t' Hne; now apply dict_get_set_other | apply dict_set_length].
    + now left.
Qed.
End LoginProperties.

Lemma get_login_user_precedence_witness :
  _get_login_user
    (JDict [("identifier", JDict [("user", JStr "alice")]); ("user", JStr "bob")])
    Demo.w0
  = (Ok (JStr "alice"), Demo.w0)
  /\ _get_login_user (JDict [("identifier", JStr "alice"); ("user", JStr "bob")])
       Demo.w0
     = (Raise AttributeError, Demo.w0).
Proof.
  split.
  - apply (proj1 (get_login_user_precedence _ Demo.w0) [("user", JStr "alice")]);
      reflexivity.
  - apply (proj2 (proj2 (proj2 (get_login_user_precedence _ Demo.w0))) (JStr "alice")).
    + reflexivity.
    + reflexivity.
    + discriminate.
Defined.

Lemma login_rejects_without_client_witness :
  login Demo.env (mkRequest "POST" Demo.login_path [] [] "{" []) Demo.w0
  = (Ok login_not_json, Demo.w0)
  /\ login Demo.env (mkRequest "POST" Demo.login_path [] [] "[1]" []) Demo.w0
     = (Raise AttributeError, Demo.w0).
Proof.
  split.
  - apply (proj1 (login_rejects_without_client Demo.env _ Demo.w0)). reflexivity.
  - apply (proj1 (proj2 (login_rejects_without_client Demo.env _ Demo.w0))
             (JList [JInt 1])).
    + reflexivity.
    + discriminate.
Defined.

(** ** Sync *)

Lemma verified_devices_app (l1 l2 : list event) :
  verified_devices (l1 ++ l2) = (verified_devices l1 ++ verified_devices l2)%list.
Proof.
  induction l1 as [| e l1 IH]; cbn; [reflexivity|].
  destruct e; cbn; rewrite IH; reflexivity.
Qed.

Lemma verified_devices_of_user (client : PantaClient) (devices : list Device) :
  verified_devices
    (flat_map (fun device =>
                 if dev_deleted device then []
                 else [Print ("Automatically verifying device " ++ dev_id device);
                       VerifyDevice client device])
              devices)
  = filter (fun d => negb (dev_deleted d)) devices.
Proof.
  induction devices as [| device devices IH]; [reflexivity|].
  cbn [flat_map filter]. rewrite verified_devices_app, IH.
  now destruct (dev_deleted device).
Qed.

Lemma verified_devices_of_events (client : PantaClient) (changed : dict (dict Device)) :
  verified_devices (verification_events client changed)
  = filter (fun d => negb (dev_deleted d)) (changed_devices changed).
Proof.
  unfold verification_events, changed_devices.
  induction changed as [| [user devices] changed IH]; [reflexivity|].
  cbn [flat_map]. now rewrite verified_devices_app, filter_app, IH, verified_devices_of_user.
Qed.

Lemma verify_devices_run (client : PantaClient) (changed : dict (dict Device))
    (w : World) :
  verify_devices client changed w
  = (Ok tt,
     mkWorld (self w) (log w ++ verification_events client changed) (next_id w)).
Proof.
  unfold verify_devices, verification_events.
  revert w. induction changed as [| [user devices] changed IH]; intro w; cbn.
  - unfold ret. rewrite app_nil_r. now destruct w.
  - assert (Hinner : forall w0,
               for_each (dict_values devices)
                 (fun device =>
                    if dev_deleted device then ret tt
                    else tell (Print ("Automatically verifying device " ++ dev_id device)) ;;
                         tell (VerifyDevice client device)) w0
               = (Ok tt,
                  mkWorld (self w0)
                    (log w0
                     ++ flat_map (fun device =>
                                    if dev_deleted device then []
                                    else [Print ("Automatically verifying device "
                                                 ++ dev_id device);
                                          VerifyDevice client device])
                                 (dict_values devices))
                    (next_id w0))).
    { unfold dict_values.
      induction devices as [| [id device] devices IHd]; intro w0; cbn.
      - unfold ret. rewrite app_nil_r. now destruct w0.
      - unfold bind at 1. destruct (dev_deleted device); cbn.
        + apply IHd.
        + unfold bind, tell, emit. cbn. rewrite IHd. cbn.
          now rewrite <- !app_assoc. }
    unfold bind at 1. rewrite Hinner. rewrite IH. cbn. now rewrite <- app_assoc.
Qed.

Section SyncProperties.
Variable env : Environment.

(** The automatic verification after a key query verifies the changed
    devices that are not marked deleted, each once and in the order of the
    [changed] map, and no other device; it does not raise and it leaves
    the daemon as it was. *)
Theorem verify_devices_skips_deleted (client : PantaClient)
    (changed : dict (dict Device)) (w : World) :
  let w' := snd (verify_devices client changed w) in
  fst (verify_devices client changed w) = Ok tt
  /\ self w' = self w
  /\ verified_devices (log w')
     = (verified_devices (log w)
        ++ filter (fun d => negb (dev_deleted d)) (changed_devices changed))%list.
Proof.
  cbv zeta. rewrite verify_devices_run. cbn.
  repeat split. now rewrite verified_devices_app, verified_devices_of_events.
Qed.

(** When [client.sync] answers anything but a [SyncResponse], that call is
    the only one [sync] makes (no key upload, no key query, no decryption)
    and the daemon is left as it was; the handler does not answer: it looks
    up [text] on the answer itself, which has no such method, and raises
    [AttributeError]. *)
Theorem sync_failure_raises (request : Request) (w : World) (client : PantaClient)
    (t : TransportResponse) (sync_filter : json) :
  get_access_token request <> "" ->
  dict_get (client_sessions (self w)) (get_access_token request) = Some client ->
  decode_sync_filter env (md_get (query request) "filter") = Ok sync_filter ->
  let timeout := md_get (query request) "timeout" in
  client_sync env (log w) client timeout sync_filter = SyncError t ->
  sync env request w
  = (Raise AttributeError, emit (ClientSync client timeout sync_filter) w).
Proof.
  intros Ht Hc Hd timeout Hanswer.
  unfold sync. apply truthy_str_true in Ht. rewrite Ht. cbn [negb].
  change (bind get_self ?k w) with (k (self w) w). cbn beta. rewrite Hc.
  unfold bind at 1. unfold lift. rewrite Hd.
  unfold bind at 1. unfold client_sync_call.
  fold timeout. now rewrite Hanswer.
Qed.

(** A successful sync, step by step. After [client.sync] has answered a
    [SyncResponse]: the keys are uploaded exactly when the client says they
    should be; then the keys are queried exactly when the client says they
    should be, and the devices of a [KeysQueryResponse] that are not marked
    deleted are verified; then the upstream body is decoded. If it is JSON,
    the client decrypts it, this being the last call, and the handler
    answers with the upstream status and the [json.dumps] of the decrypted
    body; if it is not, the handler raises what the decoder raises
    ([JSONDecodeError] for a body that is not JSON), the key maintenance
    having been done. The daemon is left as it was. *)
Theorem sync_success (request : Request) (w : World) (client : PantaClient)
    (t : TransportResponse) (sync_filter : json) :
  get_access_token request <> "" ->
  dict_get (client_sessions (self w)) (get_access_token request) = Some client ->
  decode_sync_filter env (md_get (query request) "filter") = Ok sync_filter ->
  let timeout := md_get (query request) "timeout" in
  client_sync env (log w) client timeout sync_filter = SyncResponse t ->
  let w1 := emit (ClientSync client timeout sync_filter) w in
  let w2 :=
    if should_upload_keys env (log w1) client then emit (KeysUpload client) w1
    else w1 in
  let w3 :=
    if should_query_keys env (log w2) client then
      match keys_query env (log w2) client with
      | KeysQueryResponse changed =>
          mkWorld (self w)
                  (log w2 ++ KeysQuery client :: verification_events client changed)
                  (next_id w)
      | KeysQueryError => emit (KeysQuery client) w2
      end
    else w2 in
  match json_loads env (tr_text t) with
  | Ok body =>
      sync env request w
      = (Ok (mkResponse (tr_status t)
                        (Dumps (decrypt_sync_body env (log w3) client body))),
         emit (DecryptSyncBody client body) w3)
  | Raise e => sync env request w = (Raise e, w3)
  end.
Proof.
  intros Ht Hc Hd timeout Hanswer w1 w2 w3.
  assert (Hrun :
            sync env request w
            = match json_loads env (tr_text t) with
              | Ok body =>
                  (Ok (mkResponse (tr_status t)
                                  (Dumps (decrypt_sync_body env (log w3) client body))),
                   emit (DecryptSyncBody client body) w3)
              | Raise e => (Raise e, w3)
              end);
    [| destruct (json_loads env (tr_text t)); exact Hrun].
  unfold sync. apply truthy_str_true in Ht. rewrite Ht. cbn [negb].
  change (bind get_self ?k w) with (k (self w) w). cbn beta. rewrite Hc.
  unfold bind at 1. unfold lift at 1. rewrite Hd.
  unfold bind at 1. unfold client_sync_call.
  fold timeout. rewrite Hanswer. fold w1.
  unfold bind at 1. unfold read_should_upload_keys.
  unfold bind at 1.
  assert (Hup : (if should_upload_keys env (log w1) client
                 then tell (KeysUpload client) else ret tt) w1 = (Ok tt, w2))
    by (unfold w2; now destruct (should_upload_keys env (log w1) client)).
  rewrite Hup.
  unfold bind at 1. unfold read_should_query_keys.
  unfold bind at 1.
  assert (Hquery :
            (if should_query_keys env (log w2) client
             then
               key_query_response <- keys_query_call env client ;;
               match key_query_response with
               | KeysQueryResponse changed => verify_devices client changed
               | KeysQueryError => ret tt
               end
             else ret tt) w2 = (Ok tt, w3)).
  { unfold w3. destruct (should_query_keys env (log w2) client); [| reflexivity].
    unfold bind, keys_query_call.
    destruct (keys_query env (log w2) client) as [changed |]; [| reflexivity].
    rewrite verify_devices_run. cbn [self log next_id emit].
    rewrite <- app_assoc. unfold w2, w1.
    destruct (should_upload_keys env _ client); reflexivity. }
  rewrite Hquery.
  unfold transport_json, lift, bind, ret, raise, decrypt_sync_body_call.
  destruct (json_loads env (tr_text t)); reflexivity.
Qed.
End SyncProperties.

Lemma sync_failure_raises_witness :
  sync env_sync_fails (Demo.sync_request "abc" None) Demo.w1
  = (Raise AttributeError, emit (ClientSync Demo.alice None JNull) Demo.w1).
Proof.
  refine (sync_failure_raises env_sync_fails (Demo.sync_request "abc" None) Demo.w1
            Demo.alice (mkTransport 502 "bad gateway") JNull _ eq_refl eq_refl eq_refl).
  vm_compute. discriminate.
Defined.

Lemma sync_success_witness :
  sync Demo.env (Demo.sync_request "abc" None) Demo.w1
  = (Ok (mkResponse 200 (Dumps (JDict []))),
     mkWorld (self Demo.w1)
       (log Demo.w1
        ++ [ClientSync Demo.alice None JNull;
            KeysUpload Demo.alice;
            KeysQuery Demo.alice;
            Print "Automatically verifying device DEVA";
            VerifyDevice Demo.alice (mkDevice "DEVA" false);
            DecryptSyncBody Demo.alice (JDict [])])
       1).
Proof.
  refine (sync_success Demo.env (Demo.sync_request "abc" None) Demo.w1
            Demo.alice (mkTransport 200 "{}") JNull _ eq_refl eq_refl eq_refl).
  vm_compute. discriminate.
Defined.

(** ** The credential taken from the header *)

Lemma lstrip_head (chars s : string) :
  Py.lstrip chars s = ""
  \/ exists c r, Py.lstrip chars s = String c r /\ Py.in_chars c chars = false.
Proof.
  induction s as [| c s IH]; cbn - [Py.in_chars]; [now left|].
  destruct (Py.in_chars c chars) eqn:E; [exact IH|].
  right. now exists c, s.
Qed.

Lemma rstrip_keeps_head (chars : string) (c : ascii) (r : string) :
  Py.in_chars c chars = false -> exists r', Py.rstrip chars (String c r) = String c r'.
Proof.
  intro H. cbn - [Py.in_chars]. destruct (Py.rstrip chars r).
  - rewrite H. now eexists.
  - now eexists.
Qed.

Lemma rstrip_ends (chars s : string) :
  Py.rstrip chars s = "" \/ ends_outside chars (Py.rstrip chars s) = true.
Proof.
  induction s as [| c s IH]; cbn - [Py.in_chars]; [now left|].
  destruct (Py.rstrip chars s) as [| c' r'] eqn:E.
  - destruct (Py.in_chars c chars) eqn:Hc; [now left|].
    right. cbn - [Py.in_chars]. now rewrite Hc.
  - right. destruct IH as [IH | IH]; [discriminate | exact IH].
Qed.

Lemma lstrip_split (chars s : string) :
  exists before, s = before ++ Py.lstrip chars s /\ all_in chars before = true.
Proof.
  induction s as [| c s [before [Hs Hb]]]; cbn - [Py.in_chars].
  - now exists "".
  - destruct (Py.in_chars c chars) eqn:E.
    + exists (String c before). cbn - [Py.in_chars]. rewrite E, Hb.
      split; [now rewrite <- Hs | reflexivity].
    + now exists "".
Qed.

Lemma rstrip_split (chars s : string) :
  exists after, s = Py.rstrip chars s ++ after /\ all_in chars after = true.
Proof.
  induction s as [| c s [after [Hs Ha]]]; cbn - [Py.in_chars].
  - now exists "".
  - destruct (Py.rstrip chars s) as [| c' r'] eqn:E.
    + cbn in Hs. subst after.
      destruct (Py.in_chars c chars) eqn:Hc.
      * exists (String c s). cbn - [Py.in_chars]. now rewrite Hc, Ha.
      * now exists s.
    + exists after. cbn in Hs |- *. split; [f_equal; exact Hs | exact Ha].
Qed.

(** When the query has no [access_token], or an empty one, the credential
    is the value of the [Authorization] header (the empty string when there
    is none) without the longest run of the characters B, e, a, r and space
    at its start and without the longest such run at its end: the header
    value is a run of these characters, then the credential, then another
    such run, and the credential is empty or its first and its last
    character are none of these. So a token that begins or ends with one of
    these characters is never the credential of a request that carries it
    in the header. *)
Theorem get_access_token_header_stripped (request : Request) :
  get_default (md_get (query request) "access_token") "" = "" ->
  exists before after,
    get_default (cimd_get (headers request) "Authorization") ""
    = before ++ get_access_token request ++ after
    /\ all_in "Bearer " before = true
    /\ all_in "Bearer " after = true
    /\ (get_access_token request = ""
        \/ exists c rest,
             get_access_token request = String c rest
             /\ Py.in_chars c "Bearer " = false
             /\ ends_outside "Bearer " (String c rest) = true).
Proof.
  intro Hq. rewrite (get_access_token_header request Hq). unfold Py.strip.
  set (h := get_default (cimd_get (headers request) "Authorization") "").
  destruct (lstrip_split "Bearer " h) as [before [Hb Hbin]].
  destruct (rstrip_split "Bearer " (Py.lstrip "Bearer " h)) as [after [Ha Hain]].
  exists before, after. split; [now rewrite <- Ha | split; [exact Hbin | split; [exact Hain|]]].
  destruct (lstrip_head "Bearer " h) as [E | [c [r [E Hc]]]]; rewrite E.
  - now left.
  - right. destruct (rstrip_keeps_head "Bearer " c r Hc) as [r' Hr].
    exists c, r'. split; [exact Hr | split; [exact Hc|]].
    destruct (rstrip_ends "Bearer " (String c r)) as [H | H].
    + rewrite Hr in H. discriminate.
    + now rewrite Hr in H.
Qed.

(** The header [Bearer abcde]: what is stripped is [Bearer a] and [e]. *)
Lemma get_access_token_header_stripped_witness :
  exists before after,
    "Bearer abcde" = before ++ "bcd" ++ after
    /\ all_in "Bearer " before = true
    /\ all_in "Bearer " after = true
    /\ ("bcd" = ""
        \/ exists c rest,
             "bcd" = String c rest
             /\ Py.in_chars c "Bearer " = false
             /\ ends_outside "Bearer " (String c rest) = true).
Proof.
  exact (get_access_token_header_stripped
           (Demo.versions_request [("Authorization", "Bearer abcde")]) eq_refl).
Defined.

Lemma get_access_token_query_witness :
  get_access_token
    (mkRequest "GET" Demo.sync_path [("access_token", "abc")]
               [("Authorization", "Bearer other")] "" [])
  = "abc".
Proof.
  apply (get_access_token_query
           (mkRequest "GET" Demo.sync_path [("access_token", "abc")]
                      [("Authorization", "Bearer other")] "" [])
           "abc").
  - reflexivity.
  - discriminate.
Defined.

(** ** The request the router sends *)




Section Outbound.
Variable env : Environment.

End Outbound.

(** ** The sessions closed over the life of the daemon *)


Lemma no_session_close_in_requests (s : ClientSession) (l : list event) :
  Forall (request_through s) l -> filter is_session_close l = [].
Proof.
  induction 1 as [| e l [o ->] _ IH]; cbn; [reflexivity | exact IH].
Qed.

Section SessionsClosed.
Variable env : Environment.






End SessionsClosed.
